(** * DeepSORT + YOLOv5 video tracker: the pipeline of [main.py]

    A shallow embedding of [main.py]: the box augmentation
    ([augment_deepsort_bbox]), the per-frame class filter and tracker call
    ([VideoTracker.image_track]), the frame loop ([VideoTracker.run]), the
    setup step ([VideoTracker.__enter__]) and the post-processing
    ([transform_playerBoxes_to_list]).

    Python [int]s are modelled as [Z].  Numbers held in tensors, arrays and
    Python floats are IEEE binary64 in the source.  The module [F64] embeds
    the box augmentation in binary64 (primitive floats), and everything
    whose truth depends on rounding is settled there.  The rest of the
    pipeline carries these numbers as exact rationals ([Q]); what is proved
    over [Q] is about which rows, boxes and calls the code produces and
    about signs and case distinctions, not about rounded values.
    Insertion-ordered dictionaries are association lists with unique
    keys.  The detector, the video source
    and the DeepSORT tracker object are collaborators of [main.py] and are
    parameters of the sections that use them. *)

From Stdlib Require Import String ZArith QArith List Bool Lia Lqa Sorted.
From Stdlib Require Floats.
Import ListNotations.

Open Scope Q_scope.

(** ** Python built-ins used by the source *)

Module Py.

(** [max(a, b)]: the first argument wins unless the second is strictly
    greater. *)
Definition max (a b : Q) : Q := if Qle_bool b a then a else b.

(** [min(a, b)]: the first argument wins unless the second is strictly
    smaller. *)
Definition min (a b : Q) : Q := if Qle_bool a b then a else b.

End Py.

(** ** Boxes *)

(** A four-element box array.  The source uses it both as
    [[x, y, width, height]] and as corner form [[x1, y1, x2, y2]]; the
    fields are the positions 0..3. *)
Record BBox : Type := mkBBox { b0 : Q; b1 : Q; b2 : Q; b3 : Q }.

Definition zero_box : BBox := mkBBox 0 0 0 0.

(** [augment_deepsort_bbox(bbox, frame_width, frame_height, width_ratio,
    height_ratio)], its expressions read over exact rationals; [F64] has
    the same expressions in binary64. *)
Definition augment_deepsort_bbox
    (bbox : BBox) (frame_width frame_height width_ratio height_ratio : Q)
    : BBox :=
  let x_center := b0 bbox + b2 bbox / 2 in
  let y_center := b1 bbox + b3 bbox / 2 in
  let x_augmented := Py.max 0 (x_center - b2 bbox * width_ratio / 2) in
  let y_augmented := Py.max 0 (y_center - b3 bbox * height_ratio / 2) in
  let width_augmented :=
    Py.min (b2 bbox * width_ratio) (frame_width - x_augmented) in
  let height_augmented :=
    Py.min (b3 bbox * height_ratio) (frame_height - y_augmented) in
  mkBBox x_augmented y_augmented width_augmented height_augmented.

(** The default keyword arguments [width_ratio=1.5], [height_ratio=1.2]. *)
Definition default_width_ratio : Q := 3 # 2.
Definition default_height_ratio : Q := 6 # 5.

Definition augment_deepsort_bbox_default
    (bbox : BBox) (frame_width frame_height : Q) : BBox :=
  augment_deepsort_bbox bbox frame_width frame_height
    default_width_ratio default_height_ratio.

(** Centre of a box in [[x, y, width, height]] form. *)
Definition x_center_of (b : BBox) : Q := b0 b + b2 b / 2.
Definition y_center_of (b : BBox) : Q := b1 b + b3 b / 2.

(** ** The box augmentation in binary64 *)

(** [augment_deepsort_bbox] as the interpreter runs it: every number is an
    IEEE binary64 value and every operation rounds to nearest.  The
    integers the source mixes in (the literal 0, the frame sizes taken
    from [shape]) are the binary64 values they convert to without error
    (magnitude up to 2^53). *)
Module F64.

Import Floats.
Local Open Scope float_scope.

(** [max(a, b)] and [min(a, b)]: the second argument replaces the first
    only when it is strictly greater, respectively strictly smaller; a
    comparison with NaN is false. *)
Definition max (a b : float) : float := if a <? b then b else a.
Definition min (a b : float) : float := if b <? a then b else a.

Record BBox : Type := mkBBox {
  b0 : float; b1 : float; b2 : float; b3 : float
}.

(** [augment_deepsort_bbox(bbox, frame_width, frame_height, width_ratio,
    height_ratio)] *)
Definition augment_deepsort_bbox
    (bbox : BBox) (frame_width frame_height width_ratio height_ratio : float)
    : BBox :=
  let x_center := b0 bbox + b2 bbox / 2 in
  let y_center := b1 bbox + b3 bbox / 2 in
  let x_augmented := max 0 (x_center - b2 bbox * width_ratio / 2) in
  let y_augmented := max 0 (y_center - b3 bbox * height_ratio / 2) in
  let width_augmented :=
    min (b2 bbox * width_ratio) (frame_width - x_augmented) in
  let height_augmented :=
    min (b3 bbox * height_ratio) (frame_height - y_augmented) in
  mkBBox x_augmented y_augmented width_augmented height_augmented.

(** The default keyword arguments [width_ratio=1.5], [height_ratio=1.2],
    the second as the binary64 value nearest to 1.2. *)
Definition default_width_ratio : float := 1.5.
Definition default_height_ratio : float := 0x1.3333333333333p+0.

(** The binary64 value of the literal [1.1] of
    [transform_playerBoxes_to_list]. *)
Definition one_point_one : float := 0x1.199999999999ap+0.

(** The first augmentation in [transform_playerBoxes_to_list], which
    feeds [augment_deepsort_bbox]: corner form to
    [[x1, y1, 1.5 * (x2 - x1), 1.1 * (y2 - y1)]]. *)
Definition corner_augment (bbox : BBox) : BBox :=
  mkBBox (b0 bbox) (b1 bbox)
         (1.5 * (b2 bbox - b0 bbox)) (one_point_one * (b3 bbox - b1 bbox)).

(** Centre of a box in [[x, y, width, height]] form, computed as the
    source computes [x_center] and [y_center]. *)
Definition x_center_of (b : BBox) : float := b0 b + b2 b / 2.
Definition y_center_of (b : BBox) : float := b1 b + b3 b / 2.

(** The rational number a finite binary64 value stands for. *)
Definition exact (x : float) : option Q :=
  match Prim2SF x with
  | S754_zero _ => Some 0%Q
  | S754_finite s m e =>
      Some ((if s then -1 else 1) * inject_Z (Zpos m) * Qpower 2 e)%Q
  | _ => None
  end.

End F64.

(** ** Detector and tracker rows *)

(** One row of the detector result [results.xyxy[0]], shape [(#obj, 6)]:
    [x1 y1 x2 y2 conf cls]. *)
Record DetRow : Type := mkDet {
  x1 : Q; y1 : Q; x2 : Q; y2 : Q; conf : Q; cls : Q
}.

(** One row of the tracker output, shape [(#ID, 5)]:
    [x1 y1 x2 y2 track_ID]. *)
Record TrackRow : Type := mkTrackRow {
  tx1 : Q; ty1 : Q; tx2 : Q; ty2 : Q; track_id : Z
}.

(** Modelled from the spec: [xyxy2xywh] (imported from
    [yolov5.utils.general]) is not among the sources.  The detector rows are
    corner coordinates and a detection handed to the tracker is
    (centre-x, centre-y, width, height), so the conversion of one row is the
    one below. *)
Definition xyxy2xywh (r : DetRow) : BBox :=
  mkBBox ((x1 r + x2 r) / 2) ((y1 r + y2 r) / 2) (x2 r - x1 r) (y2 r - y1 r).

(** [res[:, -1] == 0]: the mask of the rows kept by [image_track]. *)
Definition is_person (r : DetRow) : bool := Qeq_bool (cls r) 0.

(** [res[res[:, -1] == 0]] *)
Definition class_filter (res : list DetRow) : list DetRow :=
  filter is_person res.

(** A detection as the data model wants it: positive width and height,
    confidence in [[0, 1]]. *)
Definition well_formed (b : BBox) (c : Q) : Prop :=
  0 < b2 b /\ 0 < b3 b /\ 0 <= c /\ c <= 1.

(** ** Effects and exceptions *)

(** The calls [main.py] makes on its collaborators, in program order. *)
Inductive Event : Type :=
| EvCameraRead                                  (* self.vdo.read() *)
| EvOpen (path : string)                        (* self.vdo.open(path) *)
| EvMakedirs (path : string)                    (* os.makedirs(path) *)
| EvCreateWriter                                (* cv2.VideoWriter(...) *)
| EvGrab                                        (* self.vdo.grab() -> True *)
| EvRetrieve                                    (* self.vdo.retrieve() *)
| EvDetect                                      (* self.detector(im0) *)
| EvUpdate (bbox_xywh : list BBox) (confs : list Q)
                                                (* self.deepsort.update(...) *)
| EvRelease                                     (* self.vdo.release() *)
| EvWriterRelease.                              (* self.writer.release() *)

Definition is_update (e : Event) : bool :=
  match e with EvUpdate _ _ => true | _ => false end.

(** Events that touch a frame or the tracker. *)
Definition is_frame_work (e : Event) : bool :=
  match e with
  | EvCameraRead | EvGrab | EvRetrieve | EvDetect | EvUpdate _ _ => true
  | _ => false
  end.

Definition count_updates (evs : list Event) : nat :=
  length (filter is_update evs).

Definition is_grab (e : Event) : bool :=
  match e with EvGrab => true | _ => false end.

Inductive Exception : Type :=
| AssertionError (msg : option string)
| ZeroDivisionError
| KeyError
| AttributeError.

Inductive Result (A : Type) : Type :=
| Ok (a : A)
| Raise (e : Exception).
Arguments Ok {A} a.
Arguments Raise {A} e.

(** Computations of the pipeline: the events performed so far, and either
    a value or the exception that stopped the computation. *)
Definition M (A : Type) : Type := (list Event * Result A)%type.

Definition ret {A : Type} (a : A) : M A := ([], Ok a).

Definition raise {A : Type} (e : Exception) : M A := ([], Raise e).

Definition emit (ev : Event) : M unit := ([ev], Ok tt).

Definition lift {A : Type} (r : Result A) : M A := ([], r).

Definition bind {A B : Type} (m : M A) (k : A -> M B) : M B :=
  match m with
  | (evs, Ok a) => let (evs', r) := k a in (evs ++ evs', r)
  | (evs, Raise e) => (evs, Raise e)
  end.

Notation "x <- c ;; k" := (bind c (fun x => k))
  (at level 61, c at next level, right associativity).

(** [assert c, msg] *)
Definition py_assert (c : bool) (msg : option string) : M unit :=
  if c then ret tt else raise (AssertionError msg).

Definition trace_of {A : Type} (m : M A) : list Event := fst m.
Definition result_of {A : Type} (m : M A) : Result A := snd m.

(** The trace cut at each successful [grab()]: the events before the first
    grab, then one segment per grabbed frame, each starting at its
    [EvGrab]. *)
Fixpoint segments_aux (cur : list Event) (evs : list Event)
    : list (list Event) :=
  match evs with
  | [] => [rev cur]
  | EvGrab :: rest => rev cur :: segments_aux [EvGrab] rest
  | e :: rest => segments_aux (e :: cur) rest
  end.

(** The segments of the grabbed frames (the events before the first grab
    are dropped). *)
Definition frame_segments (evs : list Event) : list (list Event) :=
  tl (segments_aux [] evs).

(** ** Insertion-ordered dictionaries with integer keys *)

Module Dict.

Definition t (V : Type) : Type := list (Z * V).

Definition empty {V : Type} : t V := [].

(** [d[k]]; [None] stands for [KeyError]. *)
Fixpoint get {V : Type} (d : t V) (k : Z) : option V :=
  match d with
  | [] => None
  | (k', v) :: d' => if Z.eqb k k' then Some v else get d' k
  end.

(** [k in d] *)
Definition mem {V : Type} (d : t V) (k : Z) : bool :=
  match get d k with Some _ => true | None => false end.

(** [d[k] = v]: an existing key keeps its position, a new key goes last. *)
Fixpoint set {V : Type} (d : t V) (k : Z) (v : V) : t V :=
  match d with
  | [] => [(k, v)]
  | (k', v') :: d' =>
      if Z.eqb k k' then (k', v) :: d' else (k', v') :: set d' k v
  end.

(** [list(d.keys())] *)
Definition keys {V : Type} (d : t V) : list Z := map fst d.

End Dict.

(** The command-line arguments read by the pipeline. *)
Record Args : Type := mkArgs {
  cam : Z;                    (* --camera, default -1 *)
  input_path : string;        (* --input_path *)
  save_path : string;         (* --save_path *)
  save_txt : string;          (* --save_txt *)
  frame_interval : Z;         (* --frame_interval, default 1 *)
  classes : list Z            (* --classes, default [0] *)
}.

(** ** The pipeline *)

Section Pipeline.

(** A video frame ([numpy] image) with its [shape[0]] (height) and
    [shape[1]] (width). *)
Context {Image : Type}.
Variable shape : Image -> Z * Z.

(** The YOLOv5 detector: [self.detector(im0).xyxy[0]]. *)
Variable detector : Image -> list DetRow.

(** The DeepSORT tracker object and its [update(bbox_xywh, confs, im0)]. *)
Context {TrackerState : Type}.
Variable deepsort_update :
  TrackerState -> list BBox -> list Q -> Image -> TrackerState * list TrackRow.

(** [VideoTracker.image_track(im0)].  The letterboxed tensor [img] and the
    statistics string [s] the source builds are never read again and are
    left out; so are the wall-clock times. *)
Definition image_track (self_args : Args) (ds : TrackerState) (im0 : Image)
    : M (TrackerState * list TrackRow) :=
  _ <- emit EvDetect ;;
  let res := detector im0 in
  let pred := class_filter res in
  let det := pred in
  match det with
  | _ :: _ =>
      let bbox_xywh := map xyxy2xywh det in
      let confs := map conf det in
      _ <- emit (EvUpdate bbox_xywh confs) ;;
      ret (deepsort_update ds bbox_xywh confs im0)
  | [] => ret (ds, [])
  end.

(** The body of [for output in outputs] in [run]. *)
Definition record_output (idx_frame : Z) (playerBoxes : Dict.t (Dict.t BBox))
    (output : TrackRow) : Dict.t (Dict.t BBox) :=
  let bbox := mkBBox (tx1 output) (ty1 output) (tx2 output) (ty2 output) in
  let player_id := track_id output in
  let playerBoxes :=
    if Dict.mem playerBoxes player_id then playerBoxes
    else Dict.set playerBoxes player_id Dict.empty in
  match Dict.get playerBoxes player_id with
  | Some bbox_dict =>
      Dict.set playerBoxes player_id (Dict.set bbox_dict idx_frame bbox)
  | None => playerBoxes
  end.

Definition record_outputs (idx_frame : Z)
    (playerBoxes : Dict.t (Dict.t BBox)) (outputs : list TrackRow)
    : Dict.t (Dict.t BBox) :=
  fold_left (record_output idx_frame) outputs playerBoxes.

(** The local variables of [run] that live across iterations, and the
    tracker object. *)
Record Loop : Type := mkLoop {
  idx_frame : Z;
  last_out : option (list TrackRow);
  videoFrames : list Image;
  playerBoxes : Dict.t (Dict.t BBox);
  frame_width : Z;
  frame_height : Z;
  deepsort : TrackerState
}.

Definition loop_init (ds : TrackerState) : Loop :=
  mkLoop 0%Z None [] Dict.empty 0%Z 0%Z ds.

(** One iteration of [while self.vdo.grab()], for the grabbed frame
    [img0]. *)
Definition loop_body (a : Args) (st : Loop) (img0 : Image) : M Loop :=
  _ <- emit EvGrab ;;
  _ <- emit EvRetrieve ;;
  let videoFrames' := videoFrames st ++ [img0] in
  let frame_height' := fst (shape img0) in
  let frame_width' := snd (shape img0) in
  if (frame_interval a =? 0)%Z then raise ZeroDivisionError
  else if (idx_frame st mod frame_interval a =? 0)%Z then
    r <- image_track a (deepsort st) img0 ;;
    let outputs := snd r in
    ret (mkLoop (idx_frame st + 1)%Z (Some outputs) videoFrames'
           (record_outputs (idx_frame st) (playerBoxes st) outputs)
           frame_width' frame_height' (fst r))
  else
    ret (mkLoop (idx_frame st + 1)%Z (last_out st) videoFrames'
           (playerBoxes st) frame_width' frame_height' (deepsort st)).

(** The [while] loop over the frames the capture still delivers. *)
Fixpoint run_loop (a : Args) (st : Loop) (frames : list Image) : M Loop :=
  match frames with
  | [] => ret st
  | img0 :: rest => st' <- loop_body a st img0 ;; run_loop a st' rest
  end.

(** The events of one iteration of the loop, read off [loop_body] and
    [image_track]: they depend on the frame index and on the detector
    output only.  Used to describe the trace of [run_loop]. *)
Definition frame_events (a : Args) (idx : Z) (img0 : Image) : list Event :=
  EvGrab :: EvRetrieve ::
  (if (idx mod frame_interval a =? 0)%Z then
     EvDetect ::
     match class_filter (detector img0) with
     | [] => []
     | det => [EvUpdate (map xyxy2xywh det) (map conf det)]
     end
   else []).

Fixpoint loop_events (a : Args) (idx : Z) (frames : list Image)
    : list (list Event) :=
  match frames with
  | [] => []
  | img0 :: rest => frame_events a idx img0 :: loop_events a (idx + 1)%Z rest
  end.

(** Whether the class filter keeps at least one row of the frame. *)
Definition has_person (img0 : Image) : bool :=
  match class_filter (detector img0) with [] => false | _ :: _ => true end.

(** The first augmentation in [transform_playerBoxes_to_list]: corner form
    to [[x1, y1, 1.5 * (x2 - x1), 1.1 * (y2 - y1)]], read over exact
    rationals ([F64.corner_augment] is the binary64 one). *)
Definition corner_augment (bbox : BBox) : BBox :=
  mkBBox (b0 bbox) (b1 bbox)
         ((3 # 2) * (b2 bbox - b0 bbox)) ((11 # 10) * (b3 bbox - b1 bbox)).

(** The row appended for one player at frame index [i]. *)
Definition player_row (frame : Image) (i : Z) (bbox_dict : Dict.t BBox)
    : BBox :=
  match Dict.get bbox_dict i with
  | None => zero_box
  | Some bbox =>
      augment_deepsort_bbox_default (corner_augment bbox)
        (inject_Z (snd (shape frame))) (inject_Z (fst (shape frame)))
  end.

(** The inner loop [for id in player_ids]; [playerBoxes[id]] raises
    [KeyError] on a missing key. *)
Fixpoint frame_rows (playerBoxes : Dict.t (Dict.t BBox))
    (player_ids : list Z) (frame : Image) (i : Z) : Result (list BBox) :=
  match player_ids with
  | [] => Ok []
  | id :: ids =>
      match Dict.get playerBoxes id with
      | None => Raise KeyError
      | Some bbox_dict =>
          match frame_rows playerBoxes ids frame i with
          | Ok bboxes => Ok (player_row frame i bbox_dict :: bboxes)
          | Raise e => Raise e
          end
      end
  end.

(** The outer loop [for i in range(len(videoFrames))], from index [i] on
    the frames not yet visited. *)
Fixpoint transform_from (playerBoxes : Dict.t (Dict.t BBox))
    (player_ids : list Z) (i : Z) (frames : list Image)
    : Result (list (list BBox)) :=
  match frames with
  | [] => Ok []
  | frame :: rest =>
      match frame_rows playerBoxes player_ids frame i with
      | Raise e => Raise e
      | Ok bboxes =>
          match transform_from playerBoxes player_ids (i + 1)%Z rest with
          | Ok list_of_bbox => Ok (bboxes :: list_of_bbox)
          | Raise e => Raise e
          end
      end
  end.

(** [transform_playerBoxes_to_list(videoFrames, playerBoxes)] *)
Definition transform_playerBoxes_to_list (videoFrames : list Image)
    (playerBoxes : Dict.t (Dict.t BBox)) : Result (list (list BBox)) :=
  let player_ids := Dict.keys playerBoxes in
  transform_from playerBoxes player_ids 0%Z videoFrames.

(** ** Video source and setup *)

(** A [cv2.VideoCapture]: whether it is opened, the frames it will still
    deliver, and the frame size it reports. *)
Record VideoCapture : Type := mkCapture {
  is_opened : bool;
  pending : list Image;
  prop_width : Z;
  prop_height : Z
}.

(** [cv2.VideoCapture()] with no source. *)
Definition unopened : VideoCapture := mkCapture false [] 0%Z 0%Z.

(** The frames [grab()] succeeds on. *)
Definition frames_of (v : VideoCapture) : list Image :=
  if is_opened v then pending v else [].

(** The file system and the devices, as the pipeline sees them. *)
Record World : Type := mkWorld {
  isfile : string -> bool;                 (* os.path.isfile *)
  video_file : string -> VideoCapture;     (* result of vdo.open(path) *)
  camera : Z -> VideoCapture               (* cv2.VideoCapture(index) *)
}.

(** The fields of a [VideoTracker] the pipeline reads; [writer] tells
    whether the attribute [self.writer] has been assigned. *)
Record VideoTracker : Type := mkVideoTracker {
  args : Args;
  vdo : VideoCapture;
  tracker : TrackerState;
  im_width : Z;
  im_height : Z;
  writer : bool
}.

(** [VideoTracker.__init__]; [ds0] is the tracker [build_tracker]
    returns. *)
Definition init (w : World) (a : Args) (ds0 : TrackerState) : VideoTracker :=
  mkVideoTracker a
    (if (cam a =? -1)%Z then unopened else camera w (cam a))
    ds0 0%Z 0%Z false.

Definition nonempty (s : string) : bool :=
  match s with EmptyString => false | _ => true end.

(** The first half of [__enter__]: load the video from the camera or from
    the file. *)
Definition load_video (w : World) (self : VideoTracker) : M VideoTracker :=
  let a := args self in
  if negb (cam a =? -1)%Z then
    _ <- emit EvCameraRead ;;
    match frames_of (vdo self) with
    | _frame :: rest =>
        let v := vdo self in
        ret (mkVideoTracker a
               (mkCapture (is_opened v) rest (prop_width v) (prop_height v))
               (tracker self) (prop_width v) (prop_height v)
               (writer self))
    | [] => raise (AssertionError (Some "Error: Camera error"%string))
    end
  else
    _ <- py_assert (isfile w (input_path a)) (Some "Path error"%string) ;;
    _ <- emit (EvOpen (input_path a)) ;;
    let v := video_file w (input_path a) in
    _ <- py_assert (is_opened v) None ;;
    ret (mkVideoTracker a v (tracker self) (prop_width v) (prop_height v)
           (writer self)).

(** [self.writer = cv2.VideoWriter(...)] *)
Definition with_writer (self : VideoTracker) : VideoTracker :=
  mkVideoTracker (args self) (vdo self) (tracker self)
                 (im_width self) (im_height self) true.

(** [VideoTracker.__enter__]; the writer is created, and [self.writer]
    assigned, only under [if self.args.save_path]. *)
Definition enter (w : World) (self : VideoTracker) : M VideoTracker :=
  self' <- load_video w self ;;
  self'' <- (if nonempty (save_path (args self'))
             then _ <- emit (EvMakedirs (save_path (args self'))) ;;
                  _ <- emit EvCreateWriter ;;
                  ret (with_writer self')
             else ret self') ;;
  _ <- (if nonempty (save_txt (args self''))
        then emit (EvMakedirs (save_txt (args self'')))
        else ret tt) ;;
  ret self''.

(** [VideoTracker.__exit__]: [self.vdo.release()], then
    [self.writer.release()], which raises [AttributeError] when
    [__enter__] never assigned [self.writer].  The print of a pending
    exception is left out. *)
Definition exit (self : VideoTracker) : M unit :=
  _ <- emit EvRelease ;;
  if writer self then emit EvWriterRelease else raise AttributeError.

(** The [with] statement once [__enter__] has returned: after the body,
    whether it returned or raised, [__exit__] runs; it returns [None], so
    an exception of the body goes on, unless [__exit__] itself raises and
    its exception takes over. *)
Definition with_exit {A : Type} (self : VideoTracker) (body : M A) : M A :=
  match exit self with
  | (evs', Ok _) => (trace_of body ++ evs', result_of body)
  | (evs', Raise e) => (trace_of body ++ evs', Raise e)
  end.

(** What [run] returns (the random colours and the fps are left out), and
    the tracker it leaves behind. *)
Record RunResult : Type := mkRunResult {
  out_videoFrames : list Image;
  out_playerBoxes_list : list (list BBox);
  out_frame_width : Z;
  out_frame_height : Z;
  out_tracker : TrackerState
}.

(** [VideoTracker.run] *)
Definition run (self : VideoTracker) : M RunResult :=
  st <- run_loop (args self) (loop_init (tracker self))
          (frames_of (vdo self)) ;;
  playerBoxes_list <-
    lift (transform_playerBoxes_to_list (videoFrames st) (playerBoxes st)) ;;
  ret (mkRunResult (videoFrames st) playerBoxes_list
         (frame_width st) (frame_height st) (deepsort st)).

(** The script body: [with VideoTracker(args, yolo_detector) as vdo_trk:
    vdo_trk.run()].  An exception in [__enter__] leaves the [with]
    statement before its body runs and without [__exit__]. *)
Definition main (w : World) (a : Args) (ds0 : TrackerState) : M RunResult :=
  vdo_trk <- enter w (init w a ds0) ;;
  with_exit vdo_trk (run vdo_trk).

End Pipeline.

(** ** The tracker core *)

Module Orchestrator.

(** Modelled from the spec: the package [deep_sort] ([build_tracker] and the
    object behind [self.deepsort]) is not among the sources.  The lifecycle
    status of a track is one of tentative, confirmed, deleted. *)
Inductive Status : Type := Tentative | Confirmed | Deleted.

(** Modelled from the spec: the status tests of the missing tracker;
    deleted tracks are purged, confirmed tracks are visible. *)
Definition is_deleted (s : Status) : bool :=
  match s with Deleted => true | _ => false end.

Definition is_confirmed (s : Status) : bool :=
  match s with Confirmed => true | _ => false end.

(** Modelled from the spec: the configuration surface of the missing
    tracker ([max_age], [min_hits], [appearance_memory_size]) and the
    strict-tentative policy of its state machine. *)
Record Config : Type := mkConfig {
  max_age : nat;
  min_hits : nat;
  appearance_memory_size : nat;
  strict_tentative : bool
}.

Section Core.

(** The motion state of the track state model and the appearance
    embedding, with the operations the orchestrator calls on them. *)
Context {Motion : Type} {Embedding : Type}.
Variable initiate : BBox -> Motion.
Variable predict : Motion -> Motion.
Variable correct : Motion -> BBox -> Motion.
Variable to_bbox : Motion -> BBox.

(** Modelled from the spec: a detection of the missing tracker, a box
    (centre-x, centre-y, width, height), a confidence and an embedding. *)
Record Detection : Type := mkDetection {
  d_bbox : BBox;
  d_confidence : Q;
  d_embedding : Embedding
}.

(** Modelled from the spec: a track of the missing tracker, with its
    identity, motion state, lifecycle status, hit streak, time since update
    and appearance memory (most recent first). *)
Record Track : Type := mkTrack {
  identity : Z;
  motion : Motion;
  status : Status;
  hit_streak : nat;
  time_since_update : nat;
  appearance : list Embedding
}.

(** Modelled from the spec: the result of the missing cost/assignment
    engine, as positions in the track list and in the detection list. *)
Record Assignment : Type := mkAssignment {
  matches : list (nat * nat);
  unmatched_tracks : list nat;
  unmatched_detections : list nat
}.

Variable assign : list Track -> list Detection -> Assignment.

(** Modelled from the spec: the track table owned by the missing
    orchestrator, and the next identity to hand out. *)
Record Table : Type := mkTable {
  tracks : list Track;
  next_id : Z
}.

(** Modelled from the spec: the missing tracker starts from an empty table;
    identities are positive integers. *)
Definition empty_table : Table := mkTable [] 1%Z.

(** Modelled from the spec: the missing orchestrator mutates one track of
    its table in place; a position outside the table changes nothing. *)
Fixpoint update_at (ts : list Track) (i : nat) (f : Track -> Track)
    : list Track :=
  match ts, i with
  | [], _ => []
  | t :: ts', O => f t :: ts'
  | t :: ts', S i' => t :: update_at ts' i' f
  end.

(** Modelled from the spec: step 1 of the missing per-frame cycle,
    [predict()] on every live track. *)
Definition predict_track (t : Track) : Track :=
  mkTrack (identity t) (predict (motion t)) (status t) (hit_streak t)
          (time_since_update t) (appearance t).

(** Modelled from the spec: step 3 of the missing per-frame cycle, for a
    matched pair: correct, remember the embedding, increment the hit
    streak, reset time-since-update, promote at the threshold. *)
Definition apply_match (cfg : Config) (d : Detection) (t : Track) : Track :=
  let hits := S (hit_streak t) in
  mkTrack (identity t) (correct (motion t) (d_bbox d))
          (match status t with
           | Tentative => if (min_hits cfg <=? hits)%nat then Confirmed
                          else Tentative
           | s => s
           end)
          hits 0%nat
          (firstn (appearance_memory_size cfg) (d_embedding d :: appearance t)).

(** Modelled from the spec: step 4 of the missing per-frame cycle, for an
    unmatched track: increment time-since-update (the hit streak counts
    matches since the last miss, so it restarts) and delete past the maximum
    age, or at once for a tentative track under the strict policy. *)
Definition mark_missed (cfg : Config) (t : Track) : Track :=
  let tsu := S (time_since_update t) in
  mkTrack (identity t) (motion t)
          (match status t with
           | Tentative => if strict_tentative cfg then Deleted
                          else if (max_age cfg <? tsu)%nat then Deleted
                          else Tentative
           | Confirmed => if (max_age cfg <? tsu)%nat then Deleted
                          else Confirmed
           | Deleted => Deleted
           end)
          0%nat tsu (appearance t).

(** Modelled from the spec: step 5 of the missing per-frame cycle, a new
    tentative track for an unmatched detection. *)
Definition new_track (id : Z) (d : Detection) : Track :=
  mkTrack id (initiate (d_bbox d)) Tentative 0%nat 0%nat [d_embedding d].

(** Modelled from the spec: steps 3 and 4 of the missing per-frame cycle
    over all matched pairs and over all unmatched tracks. *)
Definition apply_matches (cfg : Config) (dets : list Detection)
    (ms : list (nat * nat)) (ts : list Track) : list Track :=
  fold_left
    (fun ts m =>
       match nth_error dets (snd m) with
       | Some d => update_at ts (fst m) (apply_match cfg d)
       | None => ts
       end) ms ts.

Definition mark_all_missed (cfg : Config) (us : list nat) (ts : list Track)
    : list Track :=
  fold_left (fun ts i => update_at ts i (mark_missed cfg)) us ts.

(** Modelled from the spec: step 5 of the missing per-frame cycle over all
    unmatched detections; the tracks spawned, in order, and the next free
    identity (identities increase monotonically and are never reused). *)
Fixpoint spawn (dets : list Detection) (us : list nat) (next : Z)
    : list Track * Z :=
  match us with
  | [] => ([], next)
  | i :: us' =>
      match nth_error dets i with
      | Some d =>
          let (ts, next') := spawn dets us' (next + 1)%Z in
          (new_track next d :: ts, next')
      | None => spawn dets us' next
      end
  end.

(** Modelled from the spec: step 7 of the missing per-frame cycle, the
    snapshot of the confirmed tracks, box and identity. *)
Definition snapshot_row (t : Track) : TrackRow :=
  let b := to_bbox (motion t) in
  mkTrackRow (b0 b) (b1 b) (b2 b) (b3 b) (identity t).

Definition snapshot (ts : list Track) : list TrackRow :=
  map snapshot_row (filter (fun t => is_confirmed (status t)) ts).

(** Modelled from the spec: what one cycle of the missing orchestrator
    leaves, the new table, the emitted snapshot and the identities created
    during the frame, in creation order. *)
Record CycleResult : Type := mkCycleResult {
  table_after : Table;
  emitted : list TrackRow;
  created : list Z
}.

(** Modelled from the spec: the per-frame cycle of the missing tracker
    orchestrator, in its strict order: predict, assign, correct the matched
    tracks, age the unmatched tracks, spawn, purge, emit. *)
Definition cycle (cfg : Config) (tbl : Table) (dets : list Detection)
    : CycleResult :=
  let predicted := map predict_track (tracks tbl) in
  let a := assign predicted dets in
  let corrected := apply_matches cfg dets (matches a) predicted in
  let aged := mark_all_missed cfg (unmatched_tracks a) corrected in
  let (spawned, next) := spawn dets (unmatched_detections a) (next_id tbl) in
  let live :=
    filter (fun t => negb (is_deleted (status t))) (aged ++ spawned) in
  mkCycleResult (mkTable live next) (snapshot live) (map identity spawned).

(** Modelled from the spec: a run of the missing tracker over the
    detections of successive frames, one cycle per frame; the final table,
    the snapshot of every frame, and the log of created identities in
    creation order. *)
Record History : Type := mkHistory {
  final_table : Table;
  snapshots : list (list TrackRow);
  creation_log : list Z
}.

Fixpoint run_from (cfg : Config) (tbl : Table)
    (frames : list (list Detection)) : History :=
  match frames with
  | [] => mkHistory tbl [] []
  | dets :: rest =>
      let r := cycle cfg tbl dets in
      let h := run_from cfg (table_after r) rest in
      mkHistory (final_table h) (emitted r :: snapshots h)
                (created r ++ creation_log h)
  end.

Definition run_tracker (cfg : Config) (frames : list (list Detection))
    : History :=
  run_from cfg empty_table frames.

(** The identities of the tracks of a table, in table order. *)
Definition ids (ts : list Track) : list Z := map identity ts.

(** The table invariant of the proofs: identities are positive, below the
    next identity to hand out, and increase along the table. *)
Definition table_ok (tbl : Table) : Prop :=
  (1 <= next_id tbl)%Z /\
  StronglySorted Z.lt (ids (tracks tbl)) /\
  forall z, In z (ids (tracks tbl)) -> (1 <= z < next_id tbl)%Z.

(** Modelled from the spec: the [update(bbox_xywh, confs, im0)] entry point
    of the missing tracker, one cycle over the detections of the frame; the
    embedding collaborator gives one vector per box. *)
Definition update {Image : Type} (embed : Image -> BBox -> Embedding)
    (cfg : Config) (tbl : Table) (bbox_xywh : list BBox) (confs : list Q)
    (im0 : Image) : Table * list TrackRow :=
  let dets :=
    map (fun bc => mkDetection (fst bc) (snd bc) (embed im0 (fst bc)))
        (combine bbox_xywh confs) in
  let r := cycle cfg tbl dets in
  (table_after r, emitted r).

End Core.

End Orchestrator.

(** ** A concrete instance of the collaborators *)

Module Sample.

(** A frame given by its shape and by the rows the detector reports on
    it. *)
Record Frame : Type := mkFrame {
  frame_shape : Z * Z;
  frame_rows : list DetRow
}.

Definition detector (f : Frame) : list DetRow := frame_rows f.

(** Corner form of a (centre-x, centre-y, width, height) box. *)
Definition xywh2xyxy (b : BBox) : BBox :=
  mkBBox (b0 b - b2 b / 2) (b1 b - b3 b / 2)
         (b0 b + b2 b / 2) (b1 b + b3 b / 2).

(** An assignment engine that never matches: every track and every
    detection is returned unmatched. *)
Definition assign_none (ts : list (@Orchestrator.Track BBox unit))
    (ds : list (@Orchestrator.Detection unit)) : Orchestrator.Assignment :=
  Orchestrator.mkAssignment [] (seq 0 (List.length ts))
                            (seq 0 (List.length ds)).

Definition config : Orchestrator.Config :=
  Orchestrator.mkConfig 30 3 100 false.

(** The tracker core with a motion model that keeps the last box. *)
Definition deepsort_update (tbl : @Orchestrator.Table BBox unit)
    (bbox_xywh : list BBox) (confs : list Q) (im0 : Frame)
    : @Orchestrator.Table BBox unit * list TrackRow :=
  Orchestrator.update (fun b => b) (fun m => m) (fun _ b => b) xywh2xyxy
    assign_none (fun (_ : Frame) (_ : BBox) => tt)
    config tbl bbox_xywh confs im0.

(** A table with one confirmed track, just updated. *)
Definition one_track : @Orchestrator.Table BBox unit :=
  Orchestrator.mkTable
    [Orchestrator.mkTrack 1%Z (mkBBox 100 100 50 50) Orchestrator.Confirmed
       3%nat 0%nat [tt]]
    2%Z.

Definition person_row : DetRow := mkDet 10 10 60 110 (9 # 10) 0.
Definition car_row : DetRow := mkDet 200 50 320 120 (8 # 10) 2.
(** A class-0 row squeezed against the right border: zero width. *)
Definition flat_row : DetRow := mkDet 640 10 640 120 (9 # 10) 0.

Definition empty_frame : Frame := mkFrame (480, 640)%Z [].
Definition car_frame : Frame := mkFrame (480, 640)%Z [car_row].
Definition mixed_frame : Frame := mkFrame (480, 640)%Z [car_row; person_row].
Definition person_frame : Frame := mkFrame (480, 640)%Z [person_row].
Definition flat_frame : Frame :=
  mkFrame (480, 640)%Z [flat_row; person_row].

Definition default_args : Args :=
  mkArgs (-1)%Z "../../videos/test2.mp4" "output/" "output/predict/" 1%Z
         [0%Z].

(** [--classes 2]: track cars instead of persons. *)
Definition car_args : Args :=
  mkArgs (-1)%Z "../../videos/test2.mp4" "output/" "output/predict/" 1%Z
         [2%Z].

(** A world without the input file, and one where the file exists but
    cannot be opened as a video. *)
Definition missing_file_world : @World Frame :=
  mkWorld (fun _ => false) (fun _ => unopened) (fun _ => unopened).

Definition unreadable_file_world : @World Frame :=
  mkWorld (fun _ => true) (fun _ => unopened) (fun _ => unopened).

(** One player, seen at frame 0 only, and a clip of two frames. *)
Definition player_boxes : Dict.t (Dict.t BBox) :=
  [(1%Z, [(0%Z, mkBBox 100 100 200 300)])].

Definition clip : list Frame := [person_frame; car_frame].

(** Two tracker rows of one frame. *)
Definition row_a : TrackRow := mkTrackRow 100 100 200 300 1%Z.
Definition row_b : TrackRow := mkTrackRow 300 120 380 310 2%Z.
(** A second row carrying the identity of [row_a]. *)
Definition row_a_again : TrackRow := mkTrackRow 110 105 210 305 1%Z.

(** A video file of two frames, and a camera delivering the same frames;
    the file system has every file. *)
Definition clip_capture : @VideoCapture Frame :=
  mkCapture true clip 640%Z 480%Z.

Definition clip_world : @World Frame :=
  mkWorld (fun _ => true) (fun _ => clip_capture) (fun _ => clip_capture).

Definition camera_args : Args :=
  mkArgs 0%Z "../../videos/test2.mp4" "output/" "output/predict/" 1%Z
         [0%Z].

(** [--frame_interval 0] and [--frame_interval 2]. *)
Definition zero_interval_args : Args :=
  mkArgs (-1)%Z "../../videos/test2.mp4" "output/" "output/predict/" 0%Z
         [0%Z].

Definition every_other_args : Args :=
  mkArgs (-1)%Z "../../videos/test2.mp4" "output/" "output/predict/" 2%Z
         [0%Z].

(** [--save_path ''] (and [--save_txt '']): nothing is saved. *)
Definition no_save_args : Args :=
  mkArgs (-1)%Z "../../videos/test2.mp4" EmptyString EmptyString 1%Z
         [0%Z].

(** [--frame_interval -2]. *)
Definition negative_interval_args : Args :=
  mkArgs (-1)%Z "../../videos/test2.mp4" "output/" "output/predict/" (-2)%Z
         [0%Z].

End Sample.

(** ** Pure views of the loop *)

(** [output[0:4]] of a tracker row. *)
Definition box_of (output : TrackRow) : BBox :=
  mkBBox (tx1 output) (ty1 output) (tx2 output) (ty2 output).

(** [playerBoxes[id][k]] when both keys are present. *)
Definition recorded (playerBoxes : Dict.t (Dict.t BBox)) (id k : Z)
    : option BBox :=
  match Dict.get playerBoxes id with
  | Some bbox_dict => Dict.get bbox_dict k
  | None => None
  end.

(** The identities of a list of tracker rows without repetition, each at
    its first occurrence. *)
Fixpoint first_seen (seen : list Z) (outputs : list TrackRow) : list Z :=
  match outputs with
  | [] => []
  | o :: rest =>
      if existsb (Z.eqb (track_id o)) seen then first_seen seen rest
      else track_id o :: first_seen (seen ++ [track_id o]) rest
  end.

(** What the loop of [run] keeps true of [playerBoxes] when [idx] frames
    have been grabbed: keys are listed once, every player has a box, and
    boxes sit at indices of frames already handed to the tracker. *)
Definition boxes_ok (a : Args) (idx : Z)
    (playerBoxes : Dict.t (Dict.t BBox)) : Prop :=
  NoDup (Dict.keys playerBoxes) /\
  (forall id, In id (Dict.keys playerBoxes) ->
              exists k b, recorded playerBoxes id k = Some b) /\
  (forall id k b,
      recorded playerBoxes id k = Some b ->
      (0 <= k < idx)%Z /\ (k mod frame_interval a = 0)%Z).

Section LoopState.

Context {Image : Type} (shape : Image -> Z * Z).
Variable detector : Image -> list DetRow.
Context {TrackerState : Type}.
Variable deepsort_update :
  TrackerState -> list BBox -> list Q -> Image -> TrackerState * list TrackRow.

(** The tracker and the outputs [image_track] returns, its events aside. *)
Definition track_result (ds : TrackerState) (im0 : Image)
    : TrackerState * list TrackRow :=
  match class_filter (detector im0) with
  | [] => (ds, [])
  | det => deepsort_update ds (map xyxy2xywh det) (map conf det) im0
  end.

(** The loop variables after one iteration of [loop_body] that raises
    nothing. *)
Definition next_loop (a : Args) (st : @Loop Image TrackerState)
    (img0 : Image) : @Loop Image TrackerState :=
  if (idx_frame st mod frame_interval a =? 0)%Z then
    let r := track_result (deepsort st) img0 in
    mkLoop (idx_frame st + 1)%Z (Some (snd r)) (videoFrames st ++ [img0])
           (record_outputs (idx_frame st) (playerBoxes st) (snd r))
           (snd (shape img0)) (fst (shape img0)) (fst r)
  else
    mkLoop (idx_frame st + 1)%Z (last_out st) (videoFrames st ++ [img0])
           (playerBoxes st) (snd (shape img0)) (fst (shape img0))
           (deepsort st).

End LoopState.

(** * Properties *)

(** ** [max] and [min] *)

Lemma py_max_cases (a b : Q) :
  (b <= a /\ Py.max a b = a) \/ (a < b /\ Py.max a b = b).
Proof.
  unfold Py.max. destruct (Qle_bool b a) eqn:E.
  - left. split; [apply Qle_bool_iff, E | reflexivity].
  - right. split; [| reflexivity].
    destruct (Qlt_le_dec a b) as [H | H]; [exact H |].
    apply Qle_bool_iff in H. congruence.
Qed.

Lemma py_min_cases (a b : Q) :
  (a <= b /\ Py.min a b = a) \/ (b < a /\ Py.min a b = b).
Proof.
  unfold Py.min. destruct (Qle_bool a b) eqn:E.
  - left. split; [apply Qle_bool_iff, E | reflexivity].
  - right. split; [| reflexivity].
    destruct (Qlt_le_dec b a) as [H | H]; [exact H |].
    apply Qle_bool_iff in H. congruence.
Qed.


Lemma py_max_lower (a b : Q) : a <= Py.max a b.
Proof.
  destruct (py_max_cases a b) as [[_ E] | [H E]]; rewrite E; lra.
Qed.

Lemma py_min_upper (a b : Q) : Py.min a b <= b.
Proof.
  destruct (py_min_cases a b) as [[H E] | [_ E]]; rewrite E; lra.
Qed.

(** ** The class filter and the tracker call of [image_track] *)

Lemma is_person_iff (r : DetRow) : is_person r = true <-> cls r == 0.
Proof. unfold is_person. apply Qeq_bool_iff. Qed.

Lemma class_filter_In (res : list DetRow) (r : DetRow) :
  In r (class_filter res) <-> In r res /\ cls r == 0.
Proof.
  unfold class_filter. rewrite filter_In, is_person_iff. reflexivity.
Qed.

Section ImageTrack.

Context {Image : Type} (detector : Image -> list DetRow).
Context {TrackerState : Type}.
Variable deepsort_update :
  TrackerState -> list BBox -> list Q -> Image -> TrackerState * list TrackRow.

(** The two paths of [image_track], by the filtered rows. *)
Lemma image_track_empty (a : Args) (ds : TrackerState) (im0 : Image) :
  class_filter (detector im0) = [] ->
  image_track detector deepsort_update a ds im0 = ([EvDetect], Ok (ds, [])).
Proof.
  intro E. unfold image_track. rewrite E. reflexivity.
Qed.

Lemma image_track_nonempty (a : Args) (ds : TrackerState) (im0 : Image) :
  class_filter (detector im0) <> [] ->
  let det := class_filter (detector im0) in
  image_track detector deepsort_update a ds im0 =
    ([EvDetect; EvUpdate (map xyxy2xywh det) (map conf det)],
     Ok (deepsort_update ds (map xyxy2xywh det) (map conf det) im0)).
Proof.
  intro E. unfold image_track.
  destruct (class_filter (detector im0)) as [| r rest]; [congruence |].
  reflexivity.
Qed.

Lemma image_track_updates (a : Args) (ds : TrackerState) (im0 : Image)
    (bbox_xywh : list BBox) (confs : list Q) :
  In (EvUpdate bbox_xywh confs)
     (trace_of (image_track detector deepsort_update a ds im0)) ->
  class_filter (detector im0) <> [] /\
  bbox_xywh = map xyxy2xywh (class_filter (detector im0)) /\
  confs = map conf (class_filter (detector im0)).
Proof.
  destruct (class_filter (detector im0)) as [| r rest] eqn:E.
  - rewrite image_track_empty by exact E. cbn.
    intros [H | []]. discriminate H.
  - pose proof (image_track_nonempty a ds im0) as N. rewrite E in N.
    rewrite N by discriminate. cbn.
    intros [H | [H | []]]; [discriminate H |].
    injection H as <- <-. repeat split. discriminate.
Qed.

(** C1: the class filter forwards to the tracker exactly the detector rows
    whose class id is 0 (person).  With [rows] the rows of the detector
    output whose class id is 0, in order: when there is at least one,
    [image_track] makes one call of [deepsort.update], its arguments are
    the boxes and the confidences of exactly [rows], and what
    [image_track] returns is what the tracker returns on these arguments;
    when there is none, the tracker is not called and is returned as it
    was, with no output row.  Every logged call of [deepsort.update]
    carries the boxes and confidences of [rows]. *)
Theorem class_filter_forwards_persons
    (a : Args) (ds : TrackerState) (im0 : Image) :
  exists rows : list DetRow,
    rows = class_filter (detector im0) /\
    (forall r, In r rows <-> In r (detector im0) /\ cls r == 0) /\
    (forall bbox_xywh confs,
        In (EvUpdate bbox_xywh confs)
           (trace_of (image_track detector deepsort_update a ds im0)) ->
        bbox_xywh = map xyxy2xywh rows /\ confs = map conf rows) /\
    (rows <> [] ->
     image_track detector deepsort_update a ds im0 =
       ([EvDetect; EvUpdate (map xyxy2xywh rows) (map conf rows)],
        Ok (deepsort_update ds (map xyxy2xywh rows) (map conf rows) im0))) /\
    (rows = [] ->
     image_track detector deepsort_update a ds im0 = ([EvDetect], Ok (ds, []))).
Proof.
  exists (class_filter (detector im0)). split; [reflexivity |].
  split; [| split; [| split]].
  - intro r. apply class_filter_In.
  - intros bbox_xywh confs H.
    apply image_track_updates in H. tauto.
  - intro N. apply (image_track_nonempty a ds im0 N).
  - intro E. apply (image_track_empty a ds im0 E).
Qed.

(** [image_track] never reads [self.args]: the configured classes have no
    effect on what is forwarded. *)
Lemma image_track_ignores_args (a a' : Args) (ds : TrackerState)
    (im0 : Image) :
  image_track detector deepsort_update a ds im0 =
  image_track detector deepsort_update a' ds im0.
Proof. reflexivity. Qed.

(** C5, as the code has it: no row is rejected for being malformed.  For
    every class-0 row of the detector output, whatever its width, height
    and confidence, [image_track] calls [deepsort.update] once, on boxes
    and confidences that hold the box and the confidence of that row next
    to those of the other class-0 rows of the frame, and returns what the
    tracker returns on these arguments. *)
Theorem class_zero_rows_forwarded_unchecked
    (a : Args) (ds : TrackerState) (im0 : Image) (r : DetRow) :
  In r (detector im0) ->
  cls r == 0 ->
  exists bbox_xywh confs,
    image_track detector deepsort_update a ds im0 =
      ([EvDetect; EvUpdate bbox_xywh confs],
       Ok (deepsort_update ds bbox_xywh confs im0)) /\
    In (xyxy2xywh r, conf r) (combine bbox_xywh confs) /\
    forall r', In r' (detector im0) -> cls r' == 0 ->
               In (xyxy2xywh r', conf r') (combine bbox_xywh confs).
Proof.
  intros Hin Hcls.
  assert (Hf : In r (class_filter (detector im0)))
    by (apply class_filter_In; split; assumption).
  assert (N : class_filter (detector im0) <> [])
    by (intro E; rewrite E in Hf; exact Hf).
  assert (C : forall rows r',
             In r' rows ->
             In (xyxy2xywh r', conf r')
                (combine (map xyxy2xywh rows) (map conf rows))).
  { induction rows as [| r0 rest IH]; intros r' H; [contradiction |].
    cbn. destruct H as [-> | H]; [left; reflexivity | right; auto]. }
  exists (map xyxy2xywh (class_filter (detector im0))),
         (map conf (class_filter (detector im0))).
  split; [apply (image_track_nonempty a ds im0 N) |].
  split; [apply C, Hf |].
  intros r' Hin' Hcls'. apply C. apply class_filter_In. split; assumption.
Qed.

(** C6, as the code has it: on a processed frame with no class-0 row the
    output is the empty 0-by-5 result and [deepsort.update] is not called,
    so the tracker, with every live track in it, is left as it was. *)
Theorem no_person_no_tracker_call
    (a : Args) (ds : TrackerState) (im0 : Image) :
  class_filter (detector im0) = [] ->
  result_of (image_track detector deepsort_update a ds im0) = Ok (ds, []) /\
  count_updates (trace_of (image_track detector deepsort_update a ds im0))
    = 0%nat.
Proof.
  intro E. rewrite (image_track_empty a ds im0 E). split; reflexivity.
Qed.

End ImageTrack.

(** ** Dictionaries *)

Lemma dict_get_keys {V : Type} (d : Dict.t V) (k : Z) :
  In k (Dict.keys d) -> exists v, Dict.get d k = Some v.
Proof.
  induction d as [| [k' v'] d IH]; cbn; [contradiction |].
  intros [E | H].
  - subst k'. rewrite Z.eqb_refl. eauto.
  - destruct (Z.eqb k k'); eauto.
Qed.

Lemma dict_mem_false {V : Type} (d : Dict.t V) (k : Z) :
  Dict.mem d k = false -> Dict.get d k = None.
Proof.
  unfold Dict.mem. destruct (Dict.get d k); [discriminate | reflexivity].
Qed.

(** ** [transform_playerBoxes_to_list] *)

Section Transform.

Context {Image : Type} (shape : Image -> Z * Z).

Lemma frame_rows_total (playerBoxes : Dict.t (Dict.t BBox))
    (frame : Image) (i : Z) (player_ids : list Z) :
  (forall id, In id player_ids -> In id (Dict.keys playerBoxes)) ->
  exists bboxes,
    frame_rows shape playerBoxes player_ids frame i = Ok bboxes /\
    length bboxes = length player_ids /\
    forall j id bbox_dict,
      nth_error player_ids j = Some id ->
      Dict.get playerBoxes id = Some bbox_dict ->
      nth_error bboxes j = Some (player_row shape frame i bbox_dict).
Proof.
  induction player_ids as [| id ids IH]; intro Hk.
  - exists []. repeat split. intros [| j] ? ? H; discriminate H.
  - destruct (dict_get_keys playerBoxes id) as [d Hd];
      [apply Hk; left; reflexivity |].
    destruct IH as (rest & E & L & N);
      [intros ? ?; apply Hk; right; assumption |].
    exists (player_row shape frame i d :: rest). cbn. rewrite Hd, E.
    repeat split; [cbn; congruence |].
    intros [| j] id' d' Hj Hg; cbn in *.
    + injection Hj as <-. congruence.
    + eapply N; eassumption.
Qed.

Lemma transform_from_total (playerBoxes : Dict.t (Dict.t BBox))
    (player_ids : list Z) (frames : list Image) :
  (forall id, In id player_ids -> In id (Dict.keys playerBoxes)) ->
  forall i : Z,
  exists list_of_bbox,
    transform_from shape playerBoxes player_ids i frames = Ok list_of_bbox /\
    length list_of_bbox = length frames /\
    forall k bboxes,
      nth_error list_of_bbox k = Some bboxes ->
      exists frame,
        nth_error frames k = Some frame /\
        frame_rows shape playerBoxes player_ids frame (i + Z.of_nat k)%Z
          = Ok bboxes.
Proof.
  intro Hk. induction frames as [| frame rest IH]; intro i.
  - exists []. repeat split. intros [| k] ? H; discriminate H.
  - destruct (frame_rows_total playerBoxes frame i player_ids Hk)
      as (bboxes & E & _).
    destruct (IH (i + 1)%Z) as (l & El & Ll & Nl).
    exists (bboxes :: l). cbn [transform_from]. rewrite E, El.
    repeat split; [cbn; congruence |].
    intros [| k] bb Hn; cbn in Hn.
    + injection Hn as <-. exists frame. split; [reflexivity |].
      rewrite Z.add_0_r. exact E.
    + destruct (Nl k bb Hn) as (f & Hf & Ef). exists f. split; [exact Hf |].
      replace (i + Z.of_nat (S k))%Z with (i + 1 + Z.of_nat k)%Z by lia.
      exact Ef.
Qed.

(** C8: [transform_playerBoxes_to_list] returns a list with exactly one
    entry per input video frame; each entry has one row per player identity,
    in the key order of the [playerBoxes] dictionary; and at every frame
    index at which a player has no recorded box, that player's row is
    [[0, 0, 0, 0]]. *)
Theorem transform_one_entry_per_frame (videoFrames : list Image)
    (playerBoxes : Dict.t (Dict.t BBox)) :
  exists list_of_bbox,
    transform_playerBoxes_to_list shape videoFrames playerBoxes
      = Ok list_of_bbox /\
    length list_of_bbox = length videoFrames /\
    forall i bboxes,
      nth_error list_of_bbox i = Some bboxes ->
      length bboxes = length (Dict.keys playerBoxes) /\
      forall j id bbox_dict,
        nth_error (Dict.keys playerBoxes) j = Some id ->
        Dict.get playerBoxes id = Some bbox_dict ->
        Dict.mem bbox_dict (Z.of_nat i) = false ->
        nth_error bboxes j = Some zero_box.
Proof.
  unfold transform_playerBoxes_to_list.
  destruct (transform_from_total playerBoxes (Dict.keys playerBoxes)
              videoFrames (fun _ H => H) 0%Z) as (l & E & L & N).
  exists l. split; [exact E |]. split; [exact L |].
  intros i bboxes Hi. destruct (N i bboxes Hi) as (frame & _ & Ef).
  destruct (frame_rows_total playerBoxes frame (0 + Z.of_nat i)%Z
              (Dict.keys playerBoxes) (fun _ H => H)) as (bb & E' & L' & N').
  rewrite Ef in E'. injection E' as <-. split; [exact L' |].
  intros j id d Hj Hg Hm. rewrite (N' j id d Hj Hg).
  unfold player_row. rewrite Z.add_0_l, (dict_mem_false d _ Hm).
  reflexivity.
Qed.

End Transform.

(** ** The computation monad *)

Lemma bind_ok {A B : Type} (evs : list Event) (a : A) (k : A -> M B) :
  bind (evs, Ok a) k = (evs ++ trace_of (k a), result_of (k a)).
Proof. cbn. destruct (k a). reflexivity. Qed.

Lemma bind_raise {A B : Type} (evs : list Event) (e : Exception)
    (k : A -> M B) :
  bind (evs, Raise e) k = (evs, Raise e).
Proof. reflexivity. Qed.

Lemma bind_trace_prefix {A B : Type} (m : M A) (k : A -> M B) :
  exists rest, trace_of (bind m k) = trace_of m ++ rest.
Proof.
  destruct m as [evs [a | e]].
  - rewrite bind_ok. eexists. reflexivity.
  - rewrite bind_raise. exists []. cbn. symmetry. apply app_nil_r.
Qed.

(** ** Segments of a trace *)

Lemma segments_aux_no_grab (evs cur rest : list Event) :
  forallb (fun e => negb (is_grab e)) evs = true ->
  segments_aux cur (evs ++ rest) = segments_aux (rev evs ++ cur) rest.
Proof.
  revert cur. induction evs as [| e evs IH]; intros cur H.
  - reflexivity.
  - cbn in H. apply andb_true_iff in H as [He H].
    cbn [rev app]. rewrite <- app_assoc. cbn [app].
    rewrite <- (IH (e :: cur) H).
    destruct e; cbn in He; try discriminate He; reflexivity.
Qed.

(** ** The frame loop *)

Section Loop.

Context {Image : Type} (shape : Image -> Z * Z).
Variable detector : Image -> list DetRow.
Context {TrackerState : Type}.
Variable deepsort_update :
  TrackerState -> list BBox -> list Q -> Image -> TrackerState * list TrackRow.

Lemma image_track_trace (a : Args) (ds : TrackerState) (im0 : Image) :
  exists r,
    image_track detector deepsort_update a ds im0 =
    (EvDetect ::
     match class_filter (detector im0) with
     | [] => []
     | det => [EvUpdate (map xyxy2xywh det) (map conf det)]
     end, Ok r).
Proof.
  unfold image_track.
  destruct (class_filter (detector im0)); cbn; eexists; reflexivity.
Qed.

Lemma loop_body_events (a : Args) (st : Loop) (img0 : Image) :
  frame_interval a <> 0%Z ->
  exists st',
    loop_body shape detector deepsort_update a st img0 =
      (frame_events detector a (idx_frame st) img0, Ok st') /\
    idx_frame st' = (idx_frame st + 1)%Z.
Proof.
  intro Hi. unfold loop_body, frame_events.
  apply Z.eqb_neq in Hi. rewrite Hi.
  destruct (idx_frame st mod frame_interval a =? 0)%Z.
  - destruct (image_track_trace a (deepsort st) img0) as [r E].
    rewrite E. cbn. rewrite app_nil_r. eexists. split; reflexivity.
  - cbn. eexists. split; reflexivity.
Qed.

Lemma run_loop_events (a : Args) (frames : list Image) :
  frame_interval a <> 0%Z ->
  forall st,
  exists st',
    run_loop shape detector deepsort_update a st frames =
      (concat (loop_events detector a (idx_frame st) frames), Ok st').
Proof.
  intro Hi. induction frames as [| img0 rest IH]; intro st.
  - exists st. reflexivity.
  - destruct (loop_body_events a st img0 Hi) as (st1 & E1 & I1).
    destruct (IH st1) as (st' & E').
    exists st'. cbn [run_loop loop_events concat].
    rewrite E1, bind_ok, E', I1. reflexivity.
Qed.

Lemma frame_events_no_grab (a : Args) (idx : Z) (img0 : Image) :
  exists body,
    frame_events detector a idx img0 = EvGrab :: body /\
    forallb (fun e => negb (is_grab e)) body = true.
Proof.
  unfold frame_events. eexists. split; [reflexivity |].
  destruct (idx mod frame_interval a =? 0)%Z; [| reflexivity].
  destruct (class_filter (detector img0)); reflexivity.
Qed.

Lemma segments_of_loop_events (a : Args) (frames : list Image) :
  forall idx cur,
    segments_aux cur (concat (loop_events detector a idx frames)) =
    rev cur :: loop_events detector a idx frames.
Proof.
  induction frames as [| img0 rest IH]; intros idx cur.
  - reflexivity.
  - cbn [loop_events concat].
    destruct (frame_events_no_grab a idx img0) as (body & E & N).
    rewrite E. cbn [app segments_aux].
    rewrite (segments_aux_no_grab body [EvGrab] _ N), IH.
    rewrite rev_app_distr, rev_involutive. reflexivity.
Qed.

Lemma loop_events_nth (a : Args) (frames : list Image) :
  forall idx k img0,
    nth_error frames k = Some img0 ->
    nth_error (loop_events detector a idx frames) k =
      Some (frame_events detector a (idx + Z.of_nat k)%Z img0).
Proof.
  induction frames as [| f rest IH]; intros idx [| k] img0 H;
    try discriminate H; cbn in H.
  - injection H as <-. cbn. rewrite Z.add_0_r. reflexivity.
  - cbn [loop_events nth_error]. rewrite (IH (idx + 1)%Z k img0 H).
    do 2 f_equal. lia.
Qed.

Lemma loop_events_length (a : Args) (frames : list Image) (idx : Z) :
  length (loop_events detector a idx frames) = length frames.
Proof.
  revert idx. induction frames as [| f rest IH]; intro idx; cbn;
    [reflexivity | rewrite IH; reflexivity].
Qed.

Lemma frame_events_updates (a : Args) (idx : Z) (img0 : Image) :
  count_updates (frame_events detector a idx img0) =
  if ((idx mod frame_interval a =? 0)%Z && has_person detector img0)%bool
  then 1%nat else 0%nat.
Proof.
  unfold frame_events, has_person, count_updates.
  destruct (idx mod frame_interval a =? 0)%Z; [| reflexivity].
  destruct (class_filter (detector img0)); reflexivity.
Qed.

(** C2, as the code has it: the loop runs to its end on every list of
    grabbed frames (for a non-zero [frame_interval]), its trace has one
    segment per grabbed frame, and in the segment of frame [k] the tracker
    is updated exactly once when [k] is a multiple of [frame_interval] and
    the frame has at least one class-0 detection, and not at all
    otherwise. *)
Theorem update_calls_per_frame (a : Args) (ds : TrackerState)
    (frames : list Image) :
  frame_interval a <> 0%Z ->
  let m := run_loop shape detector deepsort_update a (loop_init ds) frames in
  (exists st, result_of m = Ok st) /\
  length (frame_segments (trace_of m)) = length frames /\
  forall k img0 seg,
    nth_error frames k = Some img0 ->
    nth_error (frame_segments (trace_of m)) k = Some seg ->
    hd_error seg = Some EvGrab /\
    count_updates seg =
      if ((Z.of_nat k mod frame_interval a =? 0)%Z
          && has_person detector img0)%bool
      then 1%nat else 0%nat.
Proof.
  intro Hi. cbv zeta.
  destruct (run_loop_events a frames Hi (loop_init ds)) as (st' & E).
  rewrite E. cbn [trace_of result_of fst snd idx_frame loop_init].
  unfold frame_segments. rewrite segments_of_loop_events. cbn [tl].
  split; [eauto |]. split; [apply loop_events_length |].
  intros k img0 seg Hk Hs.
  rewrite (loop_events_nth a frames 0%Z k img0 Hk) in Hs.
  injection Hs as <-. rewrite ?Z.add_0_l. split.
  - reflexivity.
  - apply frame_events_updates.
Qed.

End Loop.

(** ** Setup: [__enter__] and the script body *)

Section Setup.

Context {Image : Type} (shape : Image -> Z * Z).
Variable detector : Image -> list DetRow.
Context {TrackerState : Type}.
Variable deepsort_update :
  TrackerState -> list BBox -> list Q -> Image -> TrackerState * list TrackRow.

Lemma load_video_file_mode (w : @World Image)
    (self : @VideoTracker Image TrackerState) :
  cam (args self) = (-1)%Z ->
  load_video w self =
    if isfile w (input_path (args self)) then
      if is_opened (video_file w (input_path (args self))) then
        ([EvOpen (input_path (args self))],
         Ok (mkVideoTracker (args self)
               (video_file w (input_path (args self))) (tracker self)
               (prop_width (video_file w (input_path (args self))))
               (prop_height (video_file w (input_path (args self))))
               (writer self)))
      else ([EvOpen (input_path (args self))], Raise (AssertionError None))
    else ([], Raise (AssertionError (Some "Path error"%string))).
Proof.
  intro Hc. unfold load_video. rewrite Hc. cbn [Z.eqb Pos.eqb negb].
  destruct (isfile w (input_path (args self))); [| reflexivity].
  destruct (is_opened (video_file w (input_path (args self)))); reflexivity.
Qed.

(** C7: in file-input mode, when the configured input path is not an
    existing file, or the video cannot be opened, the pipeline stops with
    an [AssertionError] raised in [__enter__] (with the message
    [Path error] for a missing file): its whole trace is the trace of
    [__enter__], and it holds no frame grab or read, no detection and no
    tracker update. *)
Theorem setup_aborts_before_tracking (w : @World Image) (a : Args)
    (ds0 : TrackerState) :
  cam a = (-1)%Z ->
  isfile w (input_path a) = false \/
  is_opened (video_file w (input_path a)) = false ->
  let m := main shape detector deepsort_update w a ds0 in
  (exists msg, result_of m = Raise (AssertionError msg)) /\
  (isfile w (input_path a) = false ->
   result_of m = Raise (AssertionError (Some "Path error"%string))) /\
  (exists e, result_of (enter w (init w a ds0)) = Raise e) /\
  trace_of m = trace_of (enter w (init w a ds0)) /\
  forallb (fun e => negb (is_frame_work e)) (trace_of m) = true.
Proof.
  intros Hc Hbad. cbv zeta. unfold main, enter.
  rewrite (load_video_file_mode w (init w a ds0)) by exact Hc.
  cbn [args init].
  destruct (isfile w (input_path a)) eqn:Ef.
  - destruct Hbad as [Hbad | Hbad]; [discriminate Hbad |].
    rewrite Hbad. cbn. repeat split; eauto. discriminate.
  - cbn. repeat split; eauto.
Qed.

End Setup.

(** ** Track identities of the tracker core *)

Lemma sorted_app (l1 l2 : list Z) :
  StronglySorted Z.lt l1 -> StronglySorted Z.lt l2 ->
  (forall x y, In x l1 -> In y l2 -> (x < y)%Z) ->
  StronglySorted Z.lt (l1 ++ l2).
Proof.
  intros S1 S2 H. induction S1 as [| x l1 S1 IH F]; cbn; [exact S2 |].
  constructor.
  - apply IH. intros; apply H; [right |]; assumption.
  - apply Forall_app. split; [exact F |].
    apply Forall_forall. intros y Hy. apply H; [left; reflexivity | exact Hy].
Qed.

Lemma sorted_NoDup (l : list Z) : StronglySorted Z.lt l -> NoDup l.
Proof.
  induction 1 as [| x l S IH F]; constructor; [| exact IH].
  intro Hin. rewrite Forall_forall in F. specialize (F x Hin). lia.
Qed.

Lemma sorted_map_filter {A : Type} (f : A -> Z) (p : A -> bool)
    (l : list A) :
  StronglySorted Z.lt (map f l) -> StronglySorted Z.lt (map f (filter p l)).
Proof.
  induction l as [| a l IH]; cbn; intro S; [constructor |].
  apply StronglySorted_inv in S as [S F].
  destruct (p a); [| auto]. cbn. constructor; [auto |].
  rewrite Forall_forall in *. intros y Hy. apply F.
  apply in_map_iff in Hy as (b & <- & Hb). apply in_map.
  apply filter_In in Hb. tauto.
Qed.

Module TrackerCore.

Import Orchestrator.

Section Identities.

Context {Motion : Type} {Embedding : Type}.
Variable initiate : BBox -> Motion.
Variable predict : Motion -> Motion.
Variable correct : Motion -> BBox -> Motion.
Variable to_bbox : Motion -> BBox.
Variable assign :
  list (@Track Motion Embedding) -> list (@Detection Embedding) -> Assignment.

Lemma ids_update_at (f : @Track Motion Embedding -> @Track Motion Embedding)
    (ts : list (@Track Motion Embedding)) (i : nat) :
  (forall t, identity (f t) = identity t) ->
  ids (update_at ts i f) = ids ts.
Proof.
  intro Hf. unfold ids. revert i.
  induction ts as [| t ts IH]; intros [| i]; cbn;
    rewrite ?Hf, ?IH; reflexivity.
Qed.

Lemma ids_predict (ts : list (@Track Motion Embedding)) :
  ids (map (predict_track predict) ts) = ids ts.
Proof.
  unfold ids. rewrite map_map. reflexivity.
Qed.

Lemma ids_apply_matches (cfg : Config) (dets : list (@Detection Embedding))
    (ms : list (nat * nat)) (ts : list (@Track Motion Embedding)) :
  ids (apply_matches correct cfg dets ms ts) = ids ts.
Proof.
  unfold apply_matches. revert ts.
  induction ms as [| m ms IH]; intro ts; cbn [fold_left]; [reflexivity |].
  rewrite IH. destruct (nth_error dets (snd m)); [| reflexivity].
  apply ids_update_at. reflexivity.
Qed.

Lemma ids_mark_all_missed (cfg : Config) (us : list nat)
    (ts : list (@Track Motion Embedding)) :
  ids (mark_all_missed cfg us ts) = ids ts.
Proof.
  unfold mark_all_missed. revert ts.
  induction us as [| u us IH]; intro ts; cbn [fold_left]; [reflexivity |].
  rewrite IH. apply ids_update_at. reflexivity.
Qed.

(** The identities handed out by [spawn] are exactly the integers from the
    old next identity up to the new one, in increasing order. *)
Lemma spawn_ids (dets : list (@Detection Embedding)) (us : list nat) :
  forall next ts next',
    spawn initiate dets us next = (ts, next') ->
    (next <= next')%Z /\
    StronglySorted Z.lt (ids ts) /\
    forall z, In z (ids ts) <-> (next <= z < next')%Z.
Proof.
  induction us as [| u us IH]; intros next ts next' E; cbn in E.
  - injection E as <- <-. split; [lia |]. split; [constructor |].
    intro z. cbn. split; [contradiction | lia].
  - destruct (nth_error dets u) as [d |]; [| eauto].
    destruct (spawn initiate dets us (next + 1)%Z) as [ts1 n1] eqn:E1.
    injection E as <- <-.
    destruct (IH _ _ _ E1) as (Hle & Hs & Hin).
    split; [lia |]. split.
    + cbn. constructor; [exact Hs |].
      apply Forall_forall. intros z Hz. apply Hin in Hz. lia.
    + intro z. cbn. rewrite Hin. lia.
Qed.

Lemma snapshot_ids (ts : list (@Track Motion Embedding)) :
  map track_id (snapshot to_bbox ts) =
  ids (filter (fun t => is_confirmed (status t)) ts).
Proof.
  unfold snapshot, ids. rewrite map_map. reflexivity.
Qed.

(** One cycle keeps the table invariant, never lowers the next identity,
    creates exactly the identities in between, and emits identities of the
    table only. *)
Lemma cycle_ok (cfg : Config) (tbl : @Table Motion Embedding)
    (dets : list (@Detection Embedding)) :
  table_ok tbl ->
  let r := cycle initiate predict correct to_bbox assign cfg tbl dets in
  table_ok (table_after r) /\
  (next_id tbl <= next_id (table_after r))%Z /\
  StronglySorted Z.lt (created r) /\
  (forall z, In z (created r) <->
             (next_id tbl <= z < next_id (table_after r))%Z) /\
  StronglySorted Z.lt (map track_id (emitted r)) /\
  (forall z, In z (map track_id (emitted r)) ->
             (1 <= z < next_id (table_after r))%Z).
Proof.
  intros (H1 & Hs & Hb). cbv zeta. unfold cycle.
  set (aged := mark_all_missed cfg _ _).
  assert (Ha : ids aged = ids (tracks tbl)).
  { unfold aged.
    rewrite ids_mark_all_missed, ids_apply_matches, ids_predict.
    reflexivity. }
  destruct (spawn initiate dets _ (next_id tbl)) as [spawned next] eqn:Es.
  destruct (spawn_ids _ _ _ _ _ Es) as (Hle & Hss & Hin).
  cbn [table_after created emitted tracks next_id].
  assert (Hall : StronglySorted Z.lt (ids (aged ++ spawned))).
  { unfold ids. rewrite map_app. apply sorted_app.
    - fold (ids aged). rewrite Ha. exact Hs.
    - exact Hss.
    - intros x y Hx Hy. fold (ids aged) in Hx. rewrite Ha in Hx.
      apply Hb in Hx. apply Hin in Hy. lia. }
  assert (Hbound : forall z, In z (ids (aged ++ spawned)) ->
                             (1 <= z < next)%Z).
  { intros z Hz. unfold ids in Hz. rewrite map_app in Hz.
    apply in_app_or in Hz as [Hz | Hz].
    - fold (ids aged) in Hz. rewrite Ha in Hz. apply Hb in Hz. lia.
    - apply Hin in Hz. lia. }
  assert (Hsub : forall (p : (@Track Motion Embedding) -> bool) ts z,
             In z (ids (filter p ts)) -> In z (ids ts)).
  { intros p ts z Hz. unfold ids in *.
    apply in_map_iff in Hz as (t & <- & Ht). apply in_map.
    apply filter_In in Ht. tauto. }
  split; [| split; [exact Hle | split; [exact Hss | split; [exact Hin |]]]].
  - unfold table_ok. cbn [tracks next_id]. split; [lia |]. split.
    + apply sorted_map_filter. exact Hall.
    + intros z Hz. apply Hbound. eapply Hsub. exact Hz.
  - rewrite snapshot_ids. split.
    + do 2 apply sorted_map_filter. exact Hall.
    + intros z Hz. apply Hsub, Hsub in Hz. apply Hbound, Hz.
Qed.

Lemma run_from_ok (cfg : Config) (frames : list (list (@Detection Embedding))) :
  forall tbl,
    table_ok tbl ->
    let h := run_from initiate predict correct to_bbox assign cfg tbl frames in
    table_ok (final_table h) /\
    (next_id tbl <= next_id (final_table h))%Z /\
    StronglySorted Z.lt (creation_log h) /\
    (forall z, In z (creation_log h) <->
               (next_id tbl <= z < next_id (final_table h))%Z) /\
    Forall (fun rows =>
              StronglySorted Z.lt (map track_id rows) /\
              forall z, In z (map track_id rows) ->
                        (1 <= z < next_id (final_table h))%Z)
           (snapshots h).
Proof.
  induction frames as [| dets rest IH]; intros tbl Hok; cbv zeta.
  - cbn. split; [exact Hok |]. split; [lia |]. split; [constructor |].
    split; [| constructor]. intro z. split; [contradiction | lia].
  - cbn [run_from final_table snapshots creation_log].
    destruct (cycle_ok cfg tbl dets Hok)
      as (Hok1 & Hle1 & Hs1 & Hin1 & Hes & Heb).
    destruct (IH _ Hok1) as (Hok2 & Hle2 & Hs2 & Hin2 & Hsn).
    split; [exact Hok2 |]. split; [lia |]. split; [| split].
    + apply sorted_app; [exact Hs1 | exact Hs2 |].
      intros x y Hx Hy. apply Hin1 in Hx. apply Hin2 in Hy. lia.
    + intro z. rewrite in_app_iff, Hin1, Hin2. lia.
    + constructor; [| exact Hsn]. split; [exact Hes |].
      intros z Hz. apply Heb in Hz. lia.
Qed.

(** C3: for any sequence of frames (and any assignment engine and motion
    model), the identities created by the tracker are strictly increasing
    in creation order, hence pairwise distinct over the whole run: an
    identity is handed out once and never again, also after its track was
    deleted.  Every identity is positive, the rows emitted for one frame
    carry pairwise distinct identities, and every emitted identity is one
    of the created ones. *)
Theorem identities_unique_and_increasing (cfg : Config)
    (frames : list (list (@Detection Embedding))) :
  let h := run_tracker initiate predict correct to_bbox assign cfg frames in
  StronglySorted Z.lt (creation_log h) /\
  NoDup (creation_log h) /\
  (forall id, In id (creation_log h) -> (0 < id)%Z) /\
  Forall (fun rows =>
            NoDup (map track_id rows) /\
            forall r, In r rows -> In (track_id r) (creation_log h))
         (snapshots h).
Proof.
  cbv zeta. unfold run_tracker.
  assert (H0 : table_ok (@empty_table Motion Embedding)).
  { unfold table_ok, empty_table. cbn. split; [lia |].
    split; [constructor | contradiction]. }
  destruct (run_from_ok cfg frames _ H0) as (_ & _ & Hs & Hin & Hsn).
  cbn [next_id empty_table] in Hin.
  split; [exact Hs |]. split; [apply sorted_NoDup, Hs |]. split.
  - intros id Hid. apply Hin in Hid. lia.
  - eapply Forall_impl; [| exact Hsn]. cbv beta.
    intros rows (Hr & Hb). split; [apply sorted_NoDup, Hr |].
    intros r Hr'. apply Hin. apply Hb. apply in_map. exact Hr'.
Qed.

End Identities.

End TrackerCore.

(** ** Concrete frames *)

(** C2 fails as stated: with the default [frame_interval] of 1, a grabbed
    frame on which the detector reports a car only goes by without any call
    of [deepsort.update]. *)
Lemma frame_without_person_skips_update :
  ~ Forall (fun seg => count_updates seg = 1%nat)
      (frame_segments
         (trace_of (run_loop Sample.frame_shape Sample.detector
                      Sample.deepsort_update Sample.default_args
                      (loop_init Sample.one_track) [Sample.car_frame]))).
Proof.
  intro H. apply Forall_inv in H. vm_compute in H. discriminate H.
Qed.

Lemma update_calls_per_frame_witness :
  let frames := [Sample.car_frame; Sample.person_frame] in
  let m := run_loop Sample.frame_shape Sample.detector Sample.deepsort_update
             Sample.default_args (loop_init Sample.one_track) frames in
  (exists st, result_of m = Ok st) /\
  length (frame_segments (trace_of m)) = length frames /\
  forall k img0 seg,
    nth_error frames k = Some img0 ->
    nth_error (frame_segments (trace_of m)) k = Some seg ->
    hd_error seg = Some EvGrab /\
    count_updates seg =
      if ((Z.of_nat k mod frame_interval Sample.default_args =? 0)%Z
          && has_person Sample.detector img0)%bool
      then 1%nat else 0%nat.
Proof.
  apply (update_calls_per_frame Sample.frame_shape Sample.detector
           Sample.deepsort_update Sample.default_args Sample.one_track
           [Sample.car_frame; Sample.person_frame]).
  vm_compute. discriminate.
Defined.

(** C4 on the code: with [--classes 2] and a frame holding a class-2 row
    and a class-0 row, the tracker still receives the class-0 row and only
    that one. *)
Lemma classes_option_has_no_effect :
  classes Sample.car_args = [2%Z] /\
  Sample.detector Sample.mixed_frame = [Sample.car_row; Sample.person_row] /\
  trace_of (image_track Sample.detector Sample.deepsort_update
              Sample.car_args Sample.one_track Sample.mixed_frame) =
    [EvDetect;
     EvUpdate [xyxy2xywh Sample.person_row] [conf Sample.person_row]].
Proof. repeat split. Qed.

(** C5 fails as stated: a class-0 row of width zero is passed to
    [deepsort.update]. *)
Lemma malformed_row_reaches_tracker :
  ~ (forall bbox_xywh confs b c,
        In (EvUpdate bbox_xywh confs)
           (trace_of (image_track Sample.detector Sample.deepsort_update
                        Sample.default_args Sample.one_track
                        Sample.flat_frame)) ->
        In (b, c) (combine bbox_xywh confs) ->
        well_formed b c).
Proof.
  intro H.
  assert (W : well_formed (xyxy2xywh Sample.flat_row)
                          (conf Sample.flat_row)).
  { eapply H.
    - right. left. reflexivity.
    - left. reflexivity. }
  destruct W as [W _]. vm_compute in W. discriminate W.
Qed.

Lemma class_zero_rows_forwarded_unchecked_witness :
  exists bbox_xywh confs,
    image_track Sample.detector Sample.deepsort_update
      Sample.default_args Sample.one_track Sample.flat_frame =
      ([EvDetect; EvUpdate bbox_xywh confs],
       Ok (Sample.deepsort_update Sample.one_track bbox_xywh confs
             Sample.flat_frame)) /\
    In (xyxy2xywh Sample.flat_row, conf Sample.flat_row)
       (combine bbox_xywh confs) /\
    forall r', In r' (Sample.detector Sample.flat_frame) -> cls r' == 0 ->
               In (xyxy2xywh r', conf r') (combine bbox_xywh confs).
Proof.
  apply (class_zero_rows_forwarded_unchecked Sample.detector
           Sample.deepsort_update Sample.default_args Sample.one_track
           Sample.flat_frame Sample.flat_row).
  - left. reflexivity.
  - reflexivity.
Defined.

(** C6 fails as stated: on a frame with no class-0 detection the live
    track of the table is not treated as unmatched; its time-since-update
    is not incremented. *)
Lemma live_track_not_aged_on_empty_frame :
  ~ (exists tbl',
        result_of (image_track Sample.detector Sample.deepsort_update
                     Sample.default_args Sample.one_track Sample.car_frame)
          = Ok (tbl', []) /\
        map Orchestrator.time_since_update (Orchestrator.tracks tbl') =
        map (fun t => S (Orchestrator.time_since_update t))
            (Orchestrator.tracks Sample.one_track)).
Proof.
  intros (tbl' & E & H). vm_compute in E. injection E as <-.
  vm_compute in H. discriminate H.
Qed.

Lemma no_person_no_tracker_call_witness :
  result_of (image_track Sample.detector Sample.deepsort_update
               Sample.default_args Sample.one_track Sample.car_frame)
    = Ok (Sample.one_track, []) /\
  count_updates
    (trace_of (image_track Sample.detector Sample.deepsort_update
                 Sample.default_args Sample.one_track Sample.car_frame))
    = 0%nat.
Proof.
  apply (no_person_no_tracker_call Sample.detector Sample.deepsort_update
           Sample.default_args Sample.one_track Sample.car_frame).
  reflexivity.
Defined.

Lemma setup_aborts_before_tracking_witness :
  let m := main Sample.frame_shape Sample.detector Sample.deepsort_update
             Sample.missing_file_world Sample.default_args Sample.one_track in
  (exists msg, result_of m = Raise (AssertionError msg)) /\
  (isfile Sample.missing_file_world (input_path Sample.default_args) = false ->
   result_of m = Raise (AssertionError (Some "Path error"%string))) /\
  (exists e,
      result_of (enter Sample.missing_file_world
                   (init Sample.missing_file_world Sample.default_args
                      Sample.one_track)) = Raise e) /\
  trace_of m =
    trace_of (enter Sample.missing_file_world
                (init Sample.missing_file_world Sample.default_args
                   Sample.one_track)) /\
  forallb (fun e => negb (is_frame_work e)) (trace_of m) = true.
Proof.
  apply (setup_aborts_before_tracking Sample.frame_shape Sample.detector
           Sample.deepsort_update Sample.missing_file_world
           Sample.default_args Sample.one_track).
  - reflexivity.
  - left. reflexivity.
Defined.

(** * Further properties of the code *)

(** ** One axis of [augment_deepsort_bbox] *)




(** ** [augment_deepsort_bbox] at the frame border *)







(** ** Rows of [transform_playerBoxes_to_list] *)

Section TransformRows.

Context {Image : Type} (shape : Image -> Z * Z).

(** Row [j] of entry [i] is the row of the [j]-th player at frame [i]. *)
Lemma transform_row (videoFrames : list Image)
    (playerBoxes : Dict.t (Dict.t BBox)) (i j : nat) (frame : Image)
    (id : Z) (bbox_dict : Dict.t BBox) :
  nth_error videoFrames i = Some frame ->
  nth_error (Dict.keys playerBoxes) j = Some id ->
  Dict.get playerBoxes id = Some bbox_dict ->
  exists list_of_bbox bboxes,
    transform_playerBoxes_to_list shape videoFrames playerBoxes
      = Ok list_of_bbox /\
    nth_error list_of_bbox i = Some bboxes /\
    nth_error bboxes j = Some (player_row shape frame (Z.of_nat i) bbox_dict).
Proof.
  intros Hi Hj Hg. unfold transform_playerBoxes_to_list.
  destruct (transform_from_total shape playerBoxes (Dict.keys playerBoxes)
              videoFrames (fun _ H => H) 0%Z) as (l & E & L & N).
  assert (Hlt : (i < length l)%nat).
  { rewrite L. apply nth_error_Some. congruence. }
  destruct (nth_error l i) as [bboxes |] eqn:El;
    [| apply nth_error_Some in Hlt; contradiction].
  destruct (N i bboxes El) as (frame' & Hf & Ef).
  assert (frame' = frame) by congruence. subst frame'.
  destruct (frame_rows_total shape playerBoxes frame (0 + Z.of_nat i)%Z
              (Dict.keys playerBoxes) (fun _ H => H)) as (bb & E' & _ & N').
  rewrite Ef in E'. injection E' as <-.
  exists l, bboxes. split; [exact E |]. split; [exact El |].
  rewrite (N' j id bbox_dict Hj Hg), Z.add_0_l. reflexivity.
Qed.

(** Every row of an entry is the row of some player. *)
Lemma transform_rows_from_players (videoFrames : list Image)
    (playerBoxes : Dict.t (Dict.t BBox)) (list_of_bbox : list (list BBox))
    (i : nat) (bboxes : list BBox) (row : BBox) :
  transform_playerBoxes_to_list shape videoFrames playerBoxes
    = Ok list_of_bbox ->
  nth_error list_of_bbox i = Some bboxes ->
  In row bboxes ->
  exists frame id bbox_dict,
    nth_error videoFrames i = Some frame /\
    Dict.get playerBoxes id = Some bbox_dict /\
    row = player_row shape frame (Z.of_nat i) bbox_dict.
Proof.
  unfold transform_playerBoxes_to_list. intros E Hi Hrow.
  destruct (transform_from_total shape playerBoxes (Dict.keys playerBoxes)
              videoFrames (fun _ H => H) 0%Z) as (l & E1 & _ & N).
  rewrite E in E1. injection E1 as <-.
  destruct (N i bboxes Hi) as (frame & Hf & Ef).
  destruct (frame_rows_total shape playerBoxes frame (0 + Z.of_nat i)%Z
              (Dict.keys playerBoxes) (fun _ H => H)) as (bb & E' & L' & N').
  rewrite Ef in E'. injection E' as <-.
  apply In_nth_error in Hrow as [j Hj].
  assert (Hlt : (j < length (Dict.keys playerBoxes))%nat).
  { rewrite <- L'. apply nth_error_Some. congruence. }
  destruct (nth_error (Dict.keys playerBoxes) j) as [id |] eqn:Ek;
    [| apply nth_error_Some in Hlt; contradiction].
  destruct (dict_get_keys playerBoxes id) as [d Hd];
    [eapply nth_error_In; exact Ek |].
  exists frame, id, d. split; [exact Hf |]. split; [exact Hd |].
  rewrite (N' j id d Ek Hd), Z.add_0_l in Hj. congruence.
Qed.

Lemma recorded_row (videoFrames : list Image)
    (playerBoxes : Dict.t (Dict.t BBox)) (i j : nat) (frame : Image)
    (id : Z) (bbox : BBox) :
  nth_error videoFrames i = Some frame ->
  nth_error (Dict.keys playerBoxes) j = Some id ->
  recorded playerBoxes id (Z.of_nat i) = Some bbox ->
  exists list_of_bbox bboxes,
    transform_playerBoxes_to_list shape videoFrames playerBoxes
      = Ok list_of_bbox /\
    nth_error list_of_bbox i = Some bboxes /\
    nth_error bboxes j =
      Some (augment_deepsort_bbox
              (mkBBox (b0 bbox) (b1 bbox)
                      ((3 # 2) * (b2 bbox - b0 bbox))
                      ((11 # 10) * (b3 bbox - b1 bbox)))
              (inject_Z (snd (shape frame))) (inject_Z (fst (shape frame)))
              (3 # 2) (6 # 5)).
Proof.
  intros Hi Hj Hr. unfold recorded in Hr.
  destruct (Dict.get playerBoxes id) as [d |] eqn:Hg; [| discriminate Hr].
  destruct (transform_row videoFrames playerBoxes i j frame id d Hi Hj Hg)
    as (l & bboxes & E & El & Eb).
  exists l, bboxes. split; [exact E |]. split; [exact El |].
  rewrite Eb. unfold player_row. rewrite Hr. reflexivity.
Qed.

(** Where a player has a recorded corner box [[x1, y1, x2, y2]] at frame
    index [i], the player's row is the box [[x1, y1, 1.5 * (x2 - x1),
    1.1 * (y2 - y1)]] augmented with the default ratios inside that
    frame's width and height. *)
Theorem transform_recorded_row (videoFrames : list Image)
    (playerBoxes : Dict.t (Dict.t BBox)) (i j : nat) (frame : Image)
    (id : Z) (bbox : BBox) :
  nth_error videoFrames i = Some frame ->
  nth_error (Dict.keys playerBoxes) j = Some id ->
  recorded playerBoxes id (Z.of_nat i) = Some bbox ->
  exists list_of_bbox bboxes,
    transform_playerBoxes_to_list shape videoFrames playerBoxes
      = Ok list_of_bbox /\
    nth_error list_of_bbox i = Some bboxes /\
    nth_error bboxes j =
      Some (augment_deepsort_bbox
              (mkBBox (b0 bbox) (b1 bbox)
                      ((3 # 2) * (b2 bbox - b0 bbox))
                      ((11 # 10) * (b3 bbox - b1 bbox)))
              (inject_Z (snd (shape frame))) (inject_Z (fst (shape frame)))
              (3 # 2) (6 # 5)).
Proof.
  intros Hi Hj Hr. unfold recorded in Hr.
  destruct (Dict.get playerBoxes id) as [d |] eqn:Hg; [| discriminate Hr].
  destruct (transform_row videoFrames playerBoxes i j frame id d Hi Hj Hg)
    as (l & bboxes & E & El & Eb).
  exists l, bboxes. split; [exact E |]. split; [exact El |].
  rewrite Eb. unfold player_row. rewrite Hr. reflexivity.
Qed.

End TransformRows.

Lemma transform_recorded_row_witness :
  exists list_of_bbox bboxes,
    transform_playerBoxes_to_list Sample.frame_shape Sample.clip
      Sample.player_boxes = Ok list_of_bbox /\
    nth_error list_of_bbox 0 = Some bboxes /\
    nth_error bboxes 0 =
      Some (augment_deepsort_bbox
              (mkBBox 100 100 ((3 # 2) * (200 - 100))
                      ((11 # 10) * (300 - 100)))
              (inject_Z 640) (inject_Z 480) (3 # 2) (6 # 5)).
Proof.
  apply (transform_recorded_row Sample.frame_shape Sample.clip
           Sample.player_boxes 0 0 Sample.person_frame 1%Z
           (mkBBox 100 100 200 300)); reflexivity.
Defined.

(** ** Dictionary updates *)

Lemma dict_get_set_same {V : Type} (d : Dict.t V) (k : Z) (v : V) :
  Dict.get (Dict.set d k v) k = Some v.
Proof.
  induction d as [| [k' v'] d IH]; cbn.
  - rewrite Z.eqb_refl. reflexivity.
  - destruct (Z.eqb k k') eqn:E; cbn; rewrite E; [reflexivity | exact IH].
Qed.

Lemma dict_get_set_other {V : Type} (d : Dict.t V) (k k' : Z) (v : V) :
  k' <> k -> Dict.get (Dict.set d k v) k' = Dict.get d k'.
Proof.
  intro N. induction d as [| [k0 v0] d IH]; cbn.
  - apply Z.eqb_neq in N. rewrite N. reflexivity.
  - destruct (Z.eqb k k0) eqn:E; cbn.
    + apply Z.eqb_eq in E. subst k0.
      apply Z.eqb_neq in N. rewrite N. reflexivity.
    + rewrite IH. reflexivity.
Qed.

Lemma dict_mem_keys {V : Type} (d : Dict.t V) (k : Z) :
  Dict.mem d k = existsb (Z.eqb k) (Dict.keys d).
Proof.
  unfold Dict.mem. induction d as [| [k' v'] d IH]; cbn; [reflexivity |].
  destruct (Z.eqb k k'); [reflexivity | exact IH].
Qed.

Lemma dict_mem_In {V : Type} (d : Dict.t V) (k : Z) :
  Dict.mem d k = true <-> In k (Dict.keys d).
Proof.
  rewrite dict_mem_keys, existsb_exists. split.
  - intros (x & Hx & E). apply Z.eqb_eq in E. subst x. exact Hx.
  - intro H. exists k. split; [exact H | apply Z.eqb_refl].
Qed.

Lemma dict_keys_set {V : Type} (d : Dict.t V) (k : Z) (v : V) :
  Dict.keys (Dict.set d k v) =
  if Dict.mem d k then Dict.keys d else Dict.keys d ++ [k].
Proof.
  unfold Dict.mem. induction d as [| [k' v'] d IH]; cbn; [reflexivity |].
  destruct (Z.eqb k k') eqn:E; cbn; [reflexivity |].
  fold (Dict.keys (Dict.set d k v)). rewrite IH.
  destruct (Dict.get d k); reflexivity.
Qed.

(** ** Recording the tracker output in [run] *)

Lemma record_output_keys (idx : Z) (pb : Dict.t (Dict.t BBox))
    (o : TrackRow) :
  Dict.keys (record_output idx pb o) =
  if Dict.mem pb (track_id o) then Dict.keys pb
  else Dict.keys pb ++ [track_id o].
Proof.
  unfold record_output. destruct (Dict.mem pb (track_id o)) eqn:Em.
  - unfold Dict.mem in Em.
    destruct (Dict.get pb (track_id o)) eqn:Eg; [| discriminate Em].
    rewrite dict_keys_set. unfold Dict.mem. rewrite Eg. reflexivity.
  - rewrite dict_get_set_same, dict_keys_set.
    assert (Hm : Dict.mem (Dict.set pb (track_id o) Dict.empty) (track_id o)
                 = true)
      by (unfold Dict.mem; rewrite dict_get_set_same; reflexivity).
    rewrite Hm, dict_keys_set, Em. reflexivity.
Qed.

Lemma record_output_same (idx : Z) (pb : Dict.t (Dict.t BBox))
    (o : TrackRow) :
  recorded (record_output idx pb o) (track_id o) idx = Some (box_of o).
Proof.
  unfold recorded, record_output.
  destruct (Dict.mem pb (track_id o)) eqn:Em.
  - unfold Dict.mem in Em.
    destruct (Dict.get pb (track_id o)) eqn:Eg; [| discriminate Em].
    rewrite dict_get_set_same. apply dict_get_set_same.
  - rewrite dict_get_set_same, dict_get_set_same. apply dict_get_set_same.
Qed.

Lemma record_output_other (idx : Z) (pb : Dict.t (Dict.t BBox))
    (o : TrackRow) (id k : Z) :
  id <> track_id o \/ k <> idx ->
  recorded (record_output idx pb o) id k = recorded pb id k.
Proof.
  intro N. unfold recorded, record_output.
  destruct (Z.eq_dec id (track_id o)) as [-> | Hid].
  - destruct N as [N | N]; [contradiction |].
    destruct (Dict.mem pb (track_id o)) eqn:Em.
    + unfold Dict.mem in Em.
      destruct (Dict.get pb (track_id o)) eqn:Eg; [| discriminate Em].
      rewrite dict_get_set_same. apply dict_get_set_other. exact N.
    + unfold Dict.mem in Em.
      destruct (Dict.get pb (track_id o)) eqn:Eg; [discriminate Em |].
      rewrite !dict_get_set_same.
      rewrite dict_get_set_other by exact N. reflexivity.
  - destruct (Dict.mem pb (track_id o)) eqn:Em.
    + unfold Dict.mem in Em.
      destruct (Dict.get pb (track_id o)) eqn:Eg; [| discriminate Em].
      rewrite dict_get_set_other by exact Hid. reflexivity.
    + rewrite dict_get_set_same.
      rewrite !dict_get_set_other by exact Hid. reflexivity.
Qed.

Lemma record_outputs_app (idx : Z) (pb : Dict.t (Dict.t BBox))
    (l1 l2 : list TrackRow) :
  record_outputs idx pb (l1 ++ l2) =
  record_outputs idx (record_outputs idx pb l1) l2.
Proof. unfold record_outputs. apply fold_left_app. Qed.

Lemma record_outputs_last (idx : Z) (pb : Dict.t (Dict.t BBox))
    (before after : list TrackRow) (output : TrackRow) :
  (forall o, In o after -> track_id o <> track_id output) ->
  recorded (record_outputs idx pb (before ++ output :: after))
           (track_id output) idx
  = Some (box_of output).
Proof.
  intro Hafter. rewrite record_outputs_app. cbn [record_outputs fold_left].
  fold (record_outputs idx
          (record_output idx (record_outputs idx pb before) output) after).
  generalize (record_output_same idx (record_outputs idx pb before) output).
  generalize (record_output idx (record_outputs idx pb before) output).
  induction after as [| o rest IH]; intros pb' H; [exact H |].
  cbn [record_outputs fold_left]. apply IH.
  - intros o' Ho'. apply Hafter. right. exact Ho'.
  - rewrite record_output_other; [exact H |].
    left. intro E. apply (Hafter o); [left; reflexivity | congruence].
Qed.

Lemma record_outputs_other (idx : Z) (pb : Dict.t (Dict.t BBox))
    (outputs : list TrackRow) (id k : Z) :
  k <> idx ->
  recorded (record_outputs idx pb outputs) id k = recorded pb id k.
Proof.
  intro N. revert pb.
  induction outputs as [| o rest IH]; intro pb; [reflexivity |].
  cbn [record_outputs fold_left].
  fold (record_outputs idx (record_output idx pb o) rest).
  rewrite IH. apply record_output_other. right. exact N.
Qed.

Lemma record_outputs_keys_eq (idx : Z) (outputs : list TrackRow) :
  forall pb,
    Dict.keys (record_outputs idx pb outputs) =
    Dict.keys pb ++ first_seen (Dict.keys pb) outputs.
Proof.
  induction outputs as [| o rest IH]; intro pb.
  - cbn. symmetry. apply app_nil_r.
  - cbn [record_outputs fold_left first_seen].
    fold (record_outputs idx (record_output idx pb o) rest).
    rewrite IH, record_output_keys, <- dict_mem_keys.
    destruct (Dict.mem pb (track_id o)); [reflexivity |].
    rewrite <- app_assoc. reflexivity.
Qed.

(** Within one frame the last row of an identity wins: after the loop over
    [outputs], [playerBoxes[id][idx_frame]] is the box of the last row
    carrying [id]. *)
Theorem record_outputs_last_row_wins (idx : Z)
    (playerBoxes : Dict.t (Dict.t BBox))
    (before after : list TrackRow) (output : TrackRow) :
  (forall o, In o after -> track_id o <> track_id output) ->
  recorded (record_outputs idx playerBoxes (before ++ output :: after))
           (track_id output) idx
  = Some (box_of output).
Proof.
  intro Hafter. rewrite record_outputs_app. cbn [record_outputs fold_left].
  fold (record_outputs idx
          (record_output idx (record_outputs idx playerBoxes before) output)
          after).
  generalize (record_output_same idx
                (record_outputs idx playerBoxes before) output).
  generalize (record_output idx
                (record_outputs idx playerBoxes before) output).
  induction after as [| o rest IH]; intros pb' H; [exact H |].
  cbn [record_outputs fold_left]. apply IH.
  - intros o' Ho'. apply Hafter. right. exact Ho'.
  - rewrite record_output_other; [exact H |].
    left. intro E. apply (Hafter o); [left; reflexivity | congruence].
Qed.

Lemma record_outputs_last_row_wins_witness :
  recorded (record_outputs 4%Z Sample.player_boxes
              ([Sample.row_a] ++ Sample.row_a_again :: [Sample.row_b]))
           (track_id Sample.row_a_again) 4%Z
  = Some (box_of Sample.row_a_again).
Proof.
  apply (record_outputs_last_row_wins 4%Z Sample.player_boxes
           [Sample.row_a] [Sample.row_b] Sample.row_a_again).
  intros o [<- | []]. vm_compute. discriminate.
Defined.

(** Recording the rows of frame [idx_frame] leaves what was recorded for
    every other frame index as it was. *)
Theorem record_outputs_keeps_other_frames (idx : Z)
    (playerBoxes : Dict.t (Dict.t BBox)) (outputs : list TrackRow)
    (id k : Z) :
  k <> idx ->
  recorded (record_outputs idx playerBoxes outputs) id k
  = recorded playerBoxes id k.
Proof.
  intro N. revert playerBoxes.
  induction outputs as [| o rest IH]; intro pb; [reflexivity |].
  cbn [record_outputs fold_left].
  fold (record_outputs idx (record_output idx pb o) rest).
  rewrite IH. apply record_output_other. right. exact N.
Qed.

Lemma record_outputs_keeps_other_frames_witness :
  recorded (record_outputs 4%Z Sample.player_boxes
              [Sample.row_a; Sample.row_b]) 1%Z 0%Z
  = recorded Sample.player_boxes 1%Z 0%Z.
Proof.
  apply (record_outputs_keeps_other_frames 4%Z Sample.player_boxes
           [Sample.row_a; Sample.row_b] 1%Z 0%Z).
  discriminate.
Defined.

Lemma first_seen_fresh (seen : list Z) (outputs : list TrackRow) :
  NoDup seen ->
  NoDup (seen ++ first_seen seen outputs).
Proof.
  revert seen. induction outputs as [| o rest IH]; intros seen Hs; cbn.
  - rewrite app_nil_r. exact Hs.
  - destruct (existsb (Z.eqb (track_id o)) seen) eqn:E; [auto |].
    replace (seen ++ track_id o :: first_seen (seen ++ [track_id o]) rest)
      with ((seen ++ [track_id o]) ++ first_seen (seen ++ [track_id o]) rest)
      by (rewrite <- app_assoc; reflexivity).
    apply IH. apply NoDup_app; [exact Hs | repeat constructor; intros [] |].
    intros x Hx [<- | []].
    assert (existsb (Z.eqb (track_id o)) seen = true); [| congruence].
    apply existsb_exists. exists (track_id o).
    split; [exact Hx | apply Z.eqb_refl].
Qed.

(** The players stay in the order in which their identities were first
    recorded: the loop over [outputs] appends each identity not yet a key
    of [playerBoxes], once, at its first row, and moves no key; no key is
    ever listed twice. *)
Theorem record_outputs_keys (idx : Z) (playerBoxes : Dict.t (Dict.t BBox))
    (outputs : list TrackRow) :
  Dict.keys (record_outputs idx playerBoxes outputs) =
    Dict.keys playerBoxes ++ first_seen (Dict.keys playerBoxes) outputs /\
  (NoDup (Dict.keys playerBoxes) ->
   NoDup (Dict.keys (record_outputs idx playerBoxes outputs))).
Proof.
  split; [apply record_outputs_keys_eq |].
  intro H. rewrite record_outputs_keys_eq. apply first_seen_fresh, H.
Qed.

(** ** The state of the frame loop *)

Lemma last_skips_default {A : Type} (x y : A) (l : list A) (d d' : A) :
  last (x :: y :: l) d = last (y :: l) d'.
Proof.
  revert y. induction l as [| z l IH]; intro y; [reflexivity |].
  change (last (x :: y :: z :: l) d) with (last (y :: z :: l) d).
  change (last (y :: z :: l) d') with (last (z :: l) d').
  apply IH.
Qed.

Section LoopFacts.

Context {Image : Type} (shape : Image -> Z * Z).
Variable detector : Image -> list DetRow.
Context {TrackerState : Type}.
Variable deepsort_update :
  TrackerState -> list BBox -> list Q -> Image -> TrackerState * list TrackRow.

Lemma image_track_result (a : Args) (ds : TrackerState) (im0 : Image) :
  result_of (image_track detector deepsort_update a ds im0) =
  Ok (track_result detector deepsort_update ds im0).
Proof.
  unfold image_track, track_result.
  destruct (class_filter (detector im0)); reflexivity.
Qed.

Lemma loop_body_next (a : Args) (st : Loop) (img0 : Image) :
  frame_interval a <> 0%Z ->
  loop_body shape detector deepsort_update a st img0 =
    (frame_events detector a (idx_frame st) img0,
     Ok (next_loop shape detector deepsort_update a st img0)).
Proof.
  intro Hi. destruct (loop_body_events shape detector deepsort_update
                        a st img0 Hi) as (st' & E & _).
  rewrite E. f_equal. f_equal.
  unfold loop_body in E. apply Z.eqb_neq in Hi. rewrite Hi in E.
  unfold next_loop.
  destruct (idx_frame st mod frame_interval a =? 0)%Z.
  - pose proof (image_track_result a (deepsort st) img0) as R.
    destruct (image_track detector deepsort_update a (deepsort st) img0)
      as [evs [r |]]; cbn in R; [| discriminate R].
    injection R as ->. cbn in E. injection E as _ <-. reflexivity.
  - cbn in E. injection E as _ <-. reflexivity.
Qed.

Lemma run_loop_fold (a : Args) (frames : list Image) :
  frame_interval a <> 0%Z ->
  forall st,
    run_loop shape detector deepsort_update a st frames =
      (concat (loop_events detector a (idx_frame st) frames),
       Ok (fold_left (next_loop shape detector deepsort_update a) frames st)).
Proof.
  intro Hi. induction frames as [| img0 rest IH]; intro st.
  - reflexivity.
  - cbn [run_loop loop_events concat fold_left].
    rewrite (loop_body_next a st img0 Hi), bind_ok, IH.
    cbn [trace_of result_of fst snd]. do 3 f_equal.
    unfold next_loop.
    destruct (idx_frame st mod frame_interval a =? 0)%Z; reflexivity.
Qed.

Lemma next_loop_idx (a : Args) (st : Loop) (img0 : Image) :
  idx_frame (next_loop shape detector deepsort_update a st img0) =
  (idx_frame st + 1)%Z.
Proof.
  unfold next_loop.
  destruct (idx_frame st mod frame_interval a =? 0)%Z; reflexivity.
Qed.

Lemma next_loop_frames (a : Args) (st : Loop) (img0 : Image) :
  videoFrames (next_loop shape detector deepsort_update a st img0) =
  videoFrames st ++ [img0].
Proof.
  unfold next_loop.
  destruct (idx_frame st mod frame_interval a =? 0)%Z; reflexivity.
Qed.

Lemma next_loop_size (a : Args) (st : Loop) (img0 : Image) :
  (frame_height (next_loop shape detector deepsort_update a st img0),
   frame_width (next_loop shape detector deepsort_update a st img0)) =
  shape img0.
Proof.
  unfold next_loop.
  destruct (idx_frame st mod frame_interval a =? 0)%Z; cbn;
    destruct (shape img0); reflexivity.
Qed.

Lemma fold_idx (a : Args) (frames : list Image) :
  forall st,
    idx_frame (fold_left (next_loop shape detector deepsort_update a)
                 frames st) =
    (idx_frame st + Z.of_nat (length frames))%Z.
Proof.
  induction frames as [| f rest IH]; intro st; cbn [fold_left length].
  - lia.
  - rewrite IH, next_loop_idx. lia.
Qed.

Lemma fold_frames (a : Args) (frames : list Image) :
  forall st,
    videoFrames (fold_left (next_loop shape detector deepsort_update a)
                   frames st) =
    videoFrames st ++ frames.
Proof.
  induction frames as [| f rest IH]; intro st; cbn [fold_left].
  - symmetry. apply app_nil_r.
  - rewrite IH, next_loop_frames, <- app_assoc. reflexivity.
Qed.

Lemma fold_size (a : Args) (frames : list Image) :
  forall st,
    (frame_height (fold_left (next_loop shape detector deepsort_update a)
                     frames st),
     frame_width (fold_left (next_loop shape detector deepsort_update a)
                    frames st)) =
    last (map shape frames) (frame_height st, frame_width st).
Proof.
  induction frames as [| f rest IH]; intro st; [reflexivity |].
  cbn [fold_left map]. rewrite IH, next_loop_size.
  destruct rest as [| g rest]; [reflexivity |].
  cbn [map]. symmetry. apply last_skips_default.
Qed.

End LoopFacts.

(** ** What the loop keeps true of [playerBoxes] *)

Lemma boxes_ok_later (a : Args) (idx idx' : Z)
    (pb : Dict.t (Dict.t BBox)) :
  (idx <= idx')%Z -> boxes_ok a idx pb -> boxes_ok a idx' pb.
Proof.
  intros Hle (H1 & H2 & H3). split; [exact H1 |]. split; [exact H2 |].
  intros id k b Hr. destruct (H3 id k b Hr). split; [lia | assumption].
Qed.

Lemma record_output_ok (a : Args) (idx : Z) (pb : Dict.t (Dict.t BBox))
    (o : TrackRow) :
  (0 <= idx)%Z -> (idx mod frame_interval a = 0)%Z ->
  boxes_ok a (idx + 1) pb ->
  boxes_ok a (idx + 1) (record_output idx pb o).
Proof.
  intros H0 Hm (H1 & H2 & H3). split; [| split].
  - rewrite record_output_keys.
    destruct (Dict.mem pb (track_id o)) eqn:Em; [exact H1 |].
    apply NoDup_app; [exact H1 | repeat constructor; intros [] |].
    intros x Hx [<- | []]. apply dict_mem_In in Hx. congruence.
  - intros id Hid.
    destruct (Z.eq_dec id (track_id o)) as [-> | N].
    + exists idx, (box_of o). apply record_output_same.
    + rewrite record_output_keys in Hid.
      assert (Hin : In id (Dict.keys pb)).
      { destruct (Dict.mem pb (track_id o)); [exact Hid |].
        apply in_app_or in Hid as [Hid | [E | []]];
          [exact Hid | congruence]. }
      destruct (H2 id Hin) as (k & b & Hr). exists k, b.
      rewrite record_output_other; [exact Hr | left; exact N].
  - intros id k b Hr.
    destruct (Z.eq_dec k idx) as [-> | Nk]; [split; [lia | exact Hm] |].
    rewrite record_output_other in Hr; [| right; exact Nk].
    apply (H3 id k b Hr).
Qed.

Lemma record_outputs_ok (a : Args) (idx : Z) (outputs : list TrackRow) :
  (0 <= idx)%Z -> (idx mod frame_interval a = 0)%Z ->
  forall pb,
    boxes_ok a (idx + 1) pb ->
    boxes_ok a (idx + 1) (record_outputs idx pb outputs).
Proof.
  intros H0 Hm. induction outputs as [| o rest IH]; intros pb H;
    [exact H |].
  cbn [record_outputs fold_left]. apply IH.
  apply record_output_ok; assumption.
Qed.

Section RunFacts.

Context {Image : Type} (shape : Image -> Z * Z).
Variable detector : Image -> list DetRow.
Context {TrackerState : Type}.
Variable deepsort_update :
  TrackerState -> list BBox -> list Q -> Image -> TrackerState * list TrackRow.

Lemma next_loop_ok (a : Args) (st : @Loop Image TrackerState)
    (img0 : Image) :
  (0 <= idx_frame st)%Z ->
  boxes_ok a (idx_frame st) (playerBoxes st) ->
  boxes_ok a (idx_frame st + 1)
    (playerBoxes (next_loop shape detector deepsort_update a st img0)).
Proof.
  intros H0 H.
  apply (boxes_ok_later a _ (idx_frame st + 1)%Z) in H; [| lia].
  unfold next_loop.
  destruct (idx_frame st mod frame_interval a =? 0)%Z eqn:E;
    cbn [playerBoxes]; [| exact H].
  apply Z.eqb_eq in E. apply record_outputs_ok; assumption.
Qed.

Lemma fold_ok (a : Args) (frames : list Image) :
  forall st : @Loop Image TrackerState,
    (0 <= idx_frame st)%Z ->
    boxes_ok a (idx_frame st) (playerBoxes st) ->
    boxes_ok a (idx_frame st + Z.of_nat (length frames))
      (playerBoxes
         (fold_left (next_loop shape detector deepsort_update a) frames st)).
Proof.
  induction frames as [| f rest IH]; intros st H0 H; cbn [fold_left length].
  - rewrite Z.add_0_r. exact H.
  - replace (idx_frame st + Z.of_nat (S (length rest)))%Z
      with (idx_frame (next_loop shape detector deepsort_update a st f)
            + Z.of_nat (length rest))%Z
      by (rewrite next_loop_idx; lia).
    apply IH.
    + rewrite next_loop_idx. lia.
    + rewrite next_loop_idx. apply next_loop_ok; assumption.
Qed.

Lemma loop_init_ok (a : Args) (ds : TrackerState) :
  boxes_ok a (idx_frame (@loop_init Image TrackerState ds))
    (playerBoxes (@loop_init Image TrackerState ds)).
Proof.
  unfold boxes_ok, loop_init, recorded. cbn. split; [constructor |].
  split; [contradiction | discriminate].
Qed.

(** The loop of [run] keeps [playerBoxes] well formed: after any number of
    grabbed frames every player identity is a key once, every player has
    at least one recorded box, and every recorded box sits at the index of
    a grabbed frame that is a multiple of [frame_interval]. *)
Theorem run_loop_keeps_boxes_ok (a : Args) (ds : TrackerState)
    (frames : list Image) :
  frame_interval a <> 0%Z ->
  exists st,
    result_of (run_loop shape detector deepsort_update a (loop_init ds)
                 frames) = Ok st /\
    NoDup (Dict.keys (playerBoxes st)) /\
    (forall id, In id (Dict.keys (playerBoxes st)) ->
                exists k b, recorded (playerBoxes st) id k = Some b) /\
    (forall id k b,
        recorded (playerBoxes st) id k = Some b ->
        (0 <= k < Z.of_nat (length frames))%Z /\
        (k mod frame_interval a = 0)%Z).
Proof.
  intro Hi. rewrite (run_loop_fold shape detector deepsort_update a frames Hi).
  eexists. split; [reflexivity |].
  apply (fold_ok a frames (loop_init ds)); [cbn; lia |].
  apply loop_init_ok.
Qed.

End RunFacts.

Lemma run_loop_keeps_boxes_ok_witness :
  exists st,
    result_of (run_loop Sample.frame_shape Sample.detector
                 Sample.deepsort_update Sample.every_other_args
                 (loop_init Sample.one_track) Sample.clip) = Ok st /\
    NoDup (Dict.keys (playerBoxes st)) /\
    (forall id, In id (Dict.keys (playerBoxes st)) ->
                exists k b, recorded (playerBoxes st) id k = Some b) /\
    (forall id k b,
        recorded (playerBoxes st) id k = Some b ->
        (0 <= k < Z.of_nat (length Sample.clip))%Z /\
        (k mod frame_interval Sample.every_other_args = 0)%Z).
Proof.
  apply (run_loop_keeps_boxes_ok Sample.frame_shape Sample.detector
           Sample.deepsort_update Sample.every_other_args Sample.one_track
           Sample.clip).
  vm_compute. discriminate.
Defined.

(** ** What [run] returns *)

Section RunResults.

Context {Image : Type} (shape : Image -> Z * Z).
Variable detector : Image -> list DetRow.
Context {TrackerState : Type}.
Variable deepsort_update :
  TrackerState -> list BBox -> list Q -> Image -> TrackerState * list TrackRow.

Lemma transform_total (videoFrames : list Image)
    (playerBoxes : Dict.t (Dict.t BBox)) :
  exists l,
    transform_playerBoxes_to_list shape videoFrames playerBoxes = Ok l /\
    length l = length videoFrames.
Proof.
  unfold transform_playerBoxes_to_list.
  destruct (transform_from_total shape playerBoxes (Dict.keys playerBoxes)
              videoFrames (fun _ H => H) 0%Z) as (l & E & L & _).
  exists l. split; assumption.
Qed.

Lemma run_value (self : @VideoTracker Image TrackerState) :
  frame_interval (args self) <> 0%Z ->
  let st :=
    fold_left (next_loop shape detector deepsort_update (args self))
      (frames_of (vdo self)) (loop_init (tracker self)) in
  exists l,
    transform_playerBoxes_to_list shape (videoFrames st) (playerBoxes st)
      = Ok l /\
    run shape detector deepsort_update self =
      (concat (loop_events detector (args self) 0 (frames_of (vdo self))),
       Ok (mkRunResult (videoFrames st) l (frame_width st) (frame_height st)
             (deepsort st))).
Proof.
  intro Hi. cbv zeta.
  destruct (transform_total
              (videoFrames
                 (fold_left
                    (next_loop shape detector deepsort_update (args self))
                    (frames_of (vdo self)) (loop_init (tracker self))))
              (playerBoxes
                 (fold_left
                    (next_loop shape detector deepsort_update (args self))
                    (frames_of (vdo self)) (loop_init (tracker self)))))
    as (l & E & _).
  exists l. split; [exact E |].
  unfold run. rewrite (run_loop_fold shape detector deepsort_update
                         (args self) (frames_of (vdo self)) Hi).
  rewrite bind_ok, E. cbn. rewrite app_nil_r. reflexivity.
Qed.

(** [run] returns every grabbed frame, in order, with one entry of
    [playerBoxes_list] per frame, and reports the height and width of the
    last frame grabbed (0 and 0 when no frame was grabbed). *)
Theorem run_returns_every_frame (self : @VideoTracker Image TrackerState) :
  frame_interval (args self) <> 0%Z ->
  exists res,
    result_of (run shape detector deepsort_update self) = Ok res /\
    out_videoFrames res = frames_of (vdo self) /\
    length (out_playerBoxes_list res) = length (frames_of (vdo self)) /\
    (out_frame_height res, out_frame_width res) =
      last (map shape (frames_of (vdo self))) (0, 0)%Z.
Proof.
  intro Hi. destruct (run_value self Hi) as (l & E & R). rewrite R.
  eexists. split; [reflexivity |].
  cbn [out_videoFrames out_playerBoxes_list out_frame_height
       out_frame_width].
  split; [apply fold_frames |]. split.
  - destruct (transform_total
                (videoFrames
                   (fold_left
                      (next_loop shape detector deepsort_update (args self))
                      (frames_of (vdo self)) (loop_init (tracker self))))
                (playerBoxes
                   (fold_left
                      (next_loop shape detector deepsort_update (args self))
                      (frames_of (vdo self)) (loop_init (tracker self)))))
      as (l' & E' & L').
    rewrite E in E'. injection E' as <-.
    rewrite L', fold_frames. reflexivity.
  - apply (fold_size shape detector deepsort_update (args self)
             (frames_of (vdo self)) (loop_init (tracker self))).
Qed.

(** Frames skipped by [frame_interval] get no boxes: at every frame index
    that is not a multiple of [frame_interval], every row of the entry
    [run] returns for that frame is [[0, 0, 0, 0]], for every player. *)
Theorem run_skipped_frames_all_zero
    (self : @VideoTracker Image TrackerState) :
  frame_interval (args self) <> 0%Z ->
  exists res,
    result_of (run shape detector deepsort_update self) = Ok res /\
    forall k bboxes row,
      (Z.of_nat k mod frame_interval (args self) <> 0)%Z ->
      nth_error (out_playerBoxes_list res) k = Some bboxes ->
      In row bboxes ->
      row = zero_box.
Proof.
  intro Hi. destruct (run_value self Hi) as (l & E & R). rewrite R.
  eexists. split; [reflexivity |]. cbn [out_playerBoxes_list].
  intros k bboxes row Hk Hn Hrow.
  destruct (transform_rows_from_players shape _ _ l k bboxes row E Hn Hrow)
    as (frame & id & d & _ & Hg & ->).
  unfold player_row. destruct (Dict.get d (Z.of_nat k)) as [b |] eqn:Eb;
    [| reflexivity].
  exfalso. apply Hk.
  pose proof (fold_ok shape detector deepsort_update (args self)
                (frames_of (vdo self)) (loop_init (tracker self))) as Hok.
  destruct Hok as (_ & _ & H3); [cbn; lia | apply loop_init_ok |].
  apply (H3 id (Z.of_nat k) b). unfold recorded. rewrite Hg. exact Eb.
Qed.

(** With [--frame_interval 0] the first grabbed frame stops [run] with a
    [ZeroDivisionError], after the grab and the retrieve and before any
    detection; only a capture that delivers no frame lets [run] return. *)
Theorem run_zero_interval (self : @VideoTracker Image TrackerState) :
  frame_interval (args self) = 0%Z ->
  (frames_of (vdo self) = [] ->
   run shape detector deepsort_update self =
     ([], Ok (mkRunResult [] [] 0%Z 0%Z (tracker self)))) /\
  (frames_of (vdo self) <> [] ->
   run shape detector deepsort_update self =
     ([EvGrab; EvRetrieve], Raise ZeroDivisionError)).
Proof.
  intro Hz. unfold run. split; intro Hf.
  - rewrite Hf. reflexivity.
  - destruct (frames_of (vdo self)) as [| f rest]; [congruence |].
    cbn [run_loop]. unfold loop_body. rewrite Hz. reflexivity.
Qed.

Lemma fold_records_box (a : Args) (ds : TrackerState)
    (earlier later : list Image) (img0 : Image)
    (before after : list TrackRow) (output : TrackRow) :
  (Z.of_nat (length earlier) mod frame_interval a = 0)%Z ->
  snd (track_result detector deepsort_update
         (deepsort (fold_left (next_loop shape detector deepsort_update a)
                      earlier (loop_init ds))) img0)
    = before ++ output :: after ->
  (forall o, In o after -> track_id o <> track_id output) ->
  recorded
    (playerBoxes (fold_left (next_loop shape detector deepsort_update a)
                    (earlier ++ img0 :: later) (loop_init ds)))
    (track_id output) (Z.of_nat (length earlier))
  = Some (box_of output).
Proof.
  intros Hm Et Hafter. rewrite fold_left_app. cbn [fold_left].
  set (s1 := fold_left (next_loop shape detector deepsort_update a) earlier
               (loop_init ds)) in *.
  assert (I1 : idx_frame s1 = Z.of_nat (length earlier)).
  { unfold s1. rewrite fold_idx. cbn. lia. }
  set (s2 := next_loop shape detector deepsort_update a s1 img0).
  assert (R2 : recorded (playerBoxes s2) (track_id output)
                 (Z.of_nat (length earlier)) = Some (box_of output)).
  { unfold s2, next_loop. rewrite I1, Hm. cbn [Z.eqb playerBoxes].
    rewrite Et. apply record_outputs_last. exact Hafter. }
  assert (I2 : (Z.of_nat (length earlier) < idx_frame s2)%Z).
  { unfold s2. rewrite next_loop_idx. lia. }
  clearbody s2. clear - R2 I2. revert s2 R2 I2.
  induction later as [| f rest IH]; intros s2 R2 I2; [exact R2 |].
  cbn [fold_left]. apply IH.
  - unfold next_loop.
    destruct (idx_frame s2 mod frame_interval a =? 0)%Z;
      cbn [playerBoxes]; [| exact R2].
    rewrite record_outputs_other; [exact R2 | lia].
  - rewrite next_loop_idx. lia.
Qed.


(** End to end: a box the tracker returns for a processed frame comes out
    of [run] in the entry of that frame, as the corner box
    [[x1, y1, x2, y2]] turned into [[x1, y1, 1.5 * (x2 - x1),
    1.1 * (y2 - y1)]] and augmented with the default ratios inside the
    frame. *)
Theorem run_returns_tracked_box (self : @VideoTracker Image TrackerState)
    (ds' : TrackerState) (earlier later : list Image) (img0 : Image)
    (st1 : @Loop Image TrackerState)
    (before after : list TrackRow) (output : TrackRow) :
  frame_interval (args self) <> 0%Z ->
  frames_of (vdo self) = earlier ++ img0 :: later ->
  (Z.of_nat (length earlier) mod frame_interval (args self) = 0)%Z ->
  result_of (run_loop shape detector deepsort_update (args self)
               (loop_init (tracker self)) earlier) = Ok st1 ->
  result_of (image_track detector deepsort_update (args self)
               (deepsort st1) img0)
    = Ok (ds', before ++ output :: after) ->
  (forall o, In o after -> track_id o <> track_id output) ->
  exists res bboxes,
    result_of (run shape detector deepsort_update self) = Ok res /\
    nth_error (out_playerBoxes_list res) (length earlier) = Some bboxes /\
    In (augment_deepsort_bbox
          (mkBBox (tx1 output) (ty1 output)
                  ((3 # 2) * (tx2 output - tx1 output))
                  ((11 # 10) * (ty2 output - ty1 output)))
          (inject_Z (snd (shape img0))) (inject_Z (fst (shape img0)))
          (3 # 2) (6 # 5))
       bboxes.
Proof.
  intros Hi Hf Hm E1 Et Hafter.
  destruct (run_value self Hi) as (l & E & R). rewrite R. clear R.
  rewrite Hf, fold_frames in E. cbn [videoFrames loop_init app] in E.
  rewrite (run_loop_fold shape detector deepsort_update _ _ Hi) in E1.
  cbn [result_of snd] in E1. injection E1 as <-.
  rewrite image_track_result in Et. injection Et as Et.
  apply (f_equal snd) in Et. cbn [snd] in Et.
  pose proof (fold_records_box (args self) (tracker self) earlier later
                img0 before after output Hm Et Hafter) as Rec.
  set (pb := playerBoxes
               (fold_left
                  (next_loop shape detector deepsort_update (args self))
                  (earlier ++ img0 :: later) (loop_init (tracker self))))
    in *.
  unfold recorded in Rec.
  destruct (Dict.get pb (track_id output)) as [d |] eqn:Hg;
    [| discriminate Rec].
  assert (Hk : exists j, nth_error (Dict.keys pb) j = Some (track_id output)).
  { apply In_nth_error. apply dict_mem_In. unfold Dict.mem.
    rewrite Hg. reflexivity. }
  destruct Hk as [j Hj].
  assert (Hn : nth_error (earlier ++ img0 :: later) (length earlier)
               = Some img0).
  { rewrite nth_error_app2 by lia. rewrite Nat.sub_diag. reflexivity. }
  destruct (transform_row shape _ pb _ j img0 _ d Hn Hj Hg)
    as (l' & bboxes & E' & El & Eb).
  rewrite E in E'. injection E' as <-.
  eexists _, bboxes. split; [reflexivity |]. cbn [out_playerBoxes_list].
  split; [exact El |]. apply nth_error_In with (n := j).
  rewrite Eb. unfold player_row. rewrite Rec. reflexivity.
Qed.

End RunResults.

Lemma run_returns_every_frame_witness :
  let self :=
    mkVideoTracker Sample.default_args Sample.clip_capture Sample.one_track
      640%Z 480%Z true in
  exists res,
    result_of (run Sample.frame_shape Sample.detector Sample.deepsort_update
                 self) = Ok res /\
    out_videoFrames res = frames_of (vdo self) /\
    length (out_playerBoxes_list res) = length (frames_of (vdo self)) /\
    (out_frame_height res, out_frame_width res) =
      last (map Sample.frame_shape (frames_of (vdo self))) (0, 0)%Z.
Proof.
  apply (run_returns_every_frame Sample.frame_shape Sample.detector
           Sample.deepsort_update
           (mkVideoTracker Sample.default_args Sample.clip_capture
              Sample.one_track 640%Z 480%Z true)).
  vm_compute. discriminate.
Defined.

Lemma run_skipped_frames_all_zero_witness :
  let self :=
    mkVideoTracker Sample.every_other_args Sample.clip_capture
      Sample.one_track 640%Z 480%Z true in
  exists res,
    result_of (run Sample.frame_shape Sample.detector Sample.deepsort_update
                 self) = Ok res /\
    forall k bboxes row,
      (Z.of_nat k mod frame_interval (args self) <> 0)%Z ->
      nth_error (out_playerBoxes_list res) k = Some bboxes ->
      In row bboxes ->
      row = zero_box.
Proof.
  apply (run_skipped_frames_all_zero Sample.frame_shape Sample.detector
           Sample.deepsort_update
           (mkVideoTracker Sample.every_other_args Sample.clip_capture
              Sample.one_track 640%Z 480%Z true)).
  vm_compute. discriminate.
Defined.

Lemma run_zero_interval_witness :
  let self :=
    mkVideoTracker Sample.zero_interval_args Sample.clip_capture
      Sample.one_track 640%Z 480%Z true in
  (frames_of (vdo self) = [] ->
   run Sample.frame_shape Sample.detector Sample.deepsort_update self =
     ([], Ok (mkRunResult [] [] 0%Z 0%Z (tracker self)))) /\
  (frames_of (vdo self) <> [] ->
   run Sample.frame_shape Sample.detector Sample.deepsort_update self =
     ([EvGrab; EvRetrieve], Raise ZeroDivisionError)).
Proof.
  apply (run_zero_interval Sample.frame_shape Sample.detector
           Sample.deepsort_update
           (mkVideoTracker Sample.zero_interval_args Sample.clip_capture
              Sample.one_track 640%Z 480%Z true)).
  reflexivity.
Defined.


(** ** Setup, the loop, and [__exit__] *)

Lemma segments_length_trailing (post : list Event) :
  forallb (fun e => negb (is_grab e)) post = true ->
  forall l cur,
    length (segments_aux cur (l ++ post)) = length (segments_aux cur l).
Proof.
  intros N l. induction l as [| e l IH]; intro cur.
  - cbn [app]. rewrite <- (app_nil_r post) at 1.
    rewrite (segments_aux_no_grab post cur [] N). reflexivity.
  - destruct e; cbn [app segments_aux length]; rewrite ?IH; reflexivity.
Qed.

Section SetupThenRun.

Context {Image : Type} (shape : Image -> Z * Z).
Variable detector : Image -> list DetRow.
Context {TrackerState : Type}.
Variable deepsort_update :
  TrackerState -> list BBox -> list Q -> Image -> TrackerState * list TrackRow.

(** The second half of [__enter__] grabs nothing and raises nothing; it
    assigns [self.writer] exactly when [save_path] is not empty. *)
Lemma enter_after_load (w : @World Image)
    (self self' : @VideoTracker Image TrackerState) (evs : list Event) :
  load_video w self = (evs, Ok self') ->
  exists evs',
    enter w self =
      (evs ++ evs',
       Ok (if nonempty (save_path (args self')) then with_writer self'
           else self')) /\
    forallb (fun e => negb (is_grab e)) evs' = true.
Proof.
  intro E. unfold enter. rewrite E, bind_ok.
  destruct (nonempty (save_path (args self'))); cbn;
    destruct (nonempty (save_txt (args self')));
    cbn; eexists; split; reflexivity.
Qed.

Lemma enter_after_failed_load (w : @World Image)
    (self : @VideoTracker Image TrackerState) (evs : list Event)
    (e : Exception) :
  load_video w self = (evs, Raise e) ->
  enter w self = (evs, Raise e).
Proof. intro E. unfold enter. rewrite E. reflexivity. Qed.

Lemma exit_no_grab (self : @VideoTracker Image TrackerState) :
  forallb (fun e => negb (is_grab e)) (trace_of (exit self)) = true.
Proof. unfold exit. destruct (writer self); reflexivity. Qed.

Lemma with_exit_trace {A : Type} (self : @VideoTracker Image TrackerState)
    (body : M A) :
  trace_of (with_exit self body) = trace_of body ++ trace_of (exit self).
Proof.
  unfold with_exit. destruct (exit self) as [evs [u | e]]; reflexivity.
Qed.

Lemma with_exit_result {A : Type} (self : @VideoTracker Image TrackerState)
    (body : M A) :
  result_of (with_exit self body) =
  if writer self then result_of body else Raise AttributeError.
Proof. unfold with_exit, exit. destruct (writer self); reflexivity. Qed.

Lemma segments_after_setup (a : Args) (pre : list Event)
    (frames : list Image) :
  forallb (fun e => negb (is_grab e)) pre = true ->
  frame_segments (pre ++ concat (loop_events detector a 0 frames)) =
  loop_events detector a 0 frames.
Proof.
  intro N. unfold frame_segments.
  rewrite (segments_aux_no_grab pre [] _ N), segments_of_loop_events.
  reflexivity.
Qed.

(** What the script does once [__enter__] has returned [self']. *)
Lemma main_after_enter (w : @World Image) (a : Args) (ds0 : TrackerState)
    (pre : list Event) (self' : @VideoTracker Image TrackerState) :
  enter w (init w a ds0) = (pre, Ok self') ->
  forallb (fun e => negb (is_grab e)) pre = true ->
  frame_interval (args self') <> 0%Z ->
  exists res,
    result_of (main shape detector deepsort_update w a ds0) =
      (if writer self' then Ok res else Raise AttributeError) /\
    out_videoFrames res = frames_of (vdo self') /\
    (exists rest,
        trace_of (main shape detector deepsort_update w a ds0)
        = pre ++ rest) /\
    length (frame_segments
              (trace_of (main shape detector deepsort_update w a ds0)))
    = length (frames_of (vdo self')).
Proof.
  intros E N Hi. unfold main. rewrite E, bind_ok.
  rewrite with_exit_trace, with_exit_result.
  destruct (run_value shape detector deepsort_update self' Hi)
    as (l & _ & R).
  rewrite R. cbn [trace_of result_of fst snd].
  eexists. split; [reflexivity |]. cbn [out_videoFrames].
  split; [apply fold_frames |]. split; [eexists; reflexivity |].
  unfold frame_segments. rewrite app_assoc.
  assert (L : forall l1 l2 : list (list Event),
             length l1 = length l2 -> length (tl l1) = length (tl l2))
    by (intros [| ? ?] [| ? ?] H; cbn in *; congruence).
  rewrite (L _ _ (segments_length_trailing _ (exit_no_grab self') _ [])).
  fold (frame_segments
          (pre ++ concat (loop_events detector (args self') 0
                            (frames_of (vdo self'))))).
  rewrite (segments_after_setup (args self') pre _ N).
  apply loop_events_length.
Qed.

(** In camera mode, a camera that delivers no frame stops the pipeline in
    [__enter__] with [AssertionError: Error: Camera error], right after
    the failed read and before any output directory is created. *)
Theorem camera_without_frame_aborts (w : @World Image) (a : Args)
    (ds0 : TrackerState) :
  cam a <> (-1)%Z ->
  frames_of (camera w (cam a)) = [] ->
  main shape detector deepsort_update w a ds0 =
    ([EvCameraRead],
     Raise (AssertionError (Some "Error: Camera error"%string))).
Proof.
  intros Hc Hf. unfold main.
  rewrite (enter_after_failed_load w (init w a ds0) [EvCameraRead]
             (AssertionError (Some "Error: Camera error"%string))).
  - reflexivity.
  - unfold load_video, init. cbn [args vdo].
    apply Z.eqb_neq in Hc. rewrite Hc. cbn [negb]. rewrite Hf. reflexivity.
Qed.

(** In camera mode the frame read by [__enter__] to test the camera is
    dropped: the loop grabs exactly the frames after it, and these are the
    frames [run] returns.  The script ends normally when [save_path] is
    not empty; with an empty [save_path] the loop runs all the same, and
    [__exit__] then raises [AttributeError] because [self.writer] was
    never assigned. *)
Theorem camera_first_frame_dropped (w : @World Image) (a : Args)
    (ds0 : TrackerState) (first : Image) (rest : list Image) :
  cam a <> (-1)%Z ->
  frame_interval a <> 0%Z ->
  frames_of (camera w (cam a)) = first :: rest ->
  (nonempty (save_path a) = true ->
   exists res,
     result_of (main shape detector deepsort_update w a ds0) = Ok res /\
     out_videoFrames res = rest) /\
  (nonempty (save_path a) = false ->
   result_of (main shape detector deepsort_update w a ds0)
   = Raise AttributeError) /\
  hd_error (trace_of (main shape detector deepsort_update w a ds0))
    = Some EvCameraRead /\
  length (frame_segments
            (trace_of (main shape detector deepsort_update w a ds0)))
  = length rest.
Proof.
  intros Hc Hi Hf.
  assert (Ho : is_opened (camera w (cam a)) = true).
  { unfold frames_of in Hf.
    destruct (is_opened (camera w (cam a))); [reflexivity | discriminate]. }
  set (v := camera w (cam a)) in *.
  set (self' := mkVideoTracker a
                  (mkCapture (is_opened v) rest (prop_width v)
                     (prop_height v))
                  ds0 (prop_width v) (prop_height v) false).
  assert (L : load_video w (init w a ds0) = ([EvCameraRead], Ok self')).
  { unfold load_video, init. cbn [args vdo tracker writer].
    apply Z.eqb_neq in Hc. rewrite Hc. cbn [negb]. fold v.
    rewrite Hf. reflexivity. }
  destruct (enter_after_load w _ _ _ L) as (evs' & E & N).
  assert (Fr : forall s : @VideoTracker Image TrackerState,
             s = self' \/ s = with_writer self' ->
             frames_of (vdo s) = rest /\ args s = a).
  { intros s [-> | ->]; unfold self', with_writer, frames_of; cbn;
      rewrite Ho; split; reflexivity. }
  cbn [args] in E. unfold self' at 1 in E. cbn [args] in E.
  destruct (nonempty (save_path a)) eqn:Es.
  - destruct (Fr (with_writer self') (or_intror eq_refl)) as [F1 F2].
    destruct (main_after_enter w a ds0 _ _ E) as (res & R & F & T & S).
    + cbn. exact N.
    + rewrite F2. exact Hi.
    + cbn [with_writer writer] in R. rewrite F1 in F, S.
      split; [intros _; exists res; split; assumption |].
      split; [discriminate |]. split; [| exact S].
      destruct T as [rest' T]. rewrite T. reflexivity.
  - destruct (Fr self' (or_introl eq_refl)) as [F1 F2].
    destruct (main_after_enter w a ds0 _ _ E) as (res & R & F & T & S).
    + cbn. exact N.
    + rewrite F2. exact Hi.
    + unfold self' in R at 1. cbn [writer] in R. rewrite F1 in S.
      split; [discriminate |]. split; [intros _; exact R |].
      split; [| exact S].
      destruct T as [rest' T]. rewrite T. reflexivity.
Qed.

(** In file mode, with an existing file that opens as a video, the
    pipeline opens it first, finishes [__enter__] before the first grab,
    and runs one loop iteration per frame of the file.  With a non-empty
    [save_path] the script ends normally and [run] has returned every
    frame of the file; with an empty [save_path] [__exit__] raises
    [AttributeError] after the loop, because [self.writer] was never
    assigned. *)
Theorem file_mode_processes_whole_video (w : @World Image) (a : Args)
    (ds0 : TrackerState) :
  cam a = (-1)%Z ->
  frame_interval a <> 0%Z ->
  isfile w (input_path a) = true ->
  is_opened (video_file w (input_path a)) = true ->
  (nonempty (save_path a) = true ->
   exists res,
     result_of (main shape detector deepsort_update w a ds0) = Ok res /\
     out_videoFrames res = pending (video_file w (input_path a))) /\
  (nonempty (save_path a) = false ->
   result_of (main shape detector deepsort_update w a ds0)
   = Raise AttributeError) /\
  (exists rest,
      trace_of (main shape detector deepsort_update w a ds0)
      = trace_of (enter w (init w a ds0)) ++ rest) /\
  hd_error (trace_of (main shape detector deepsort_update w a ds0))
    = Some (EvOpen (input_path a)) /\
  length (frame_segments
            (trace_of (main shape detector deepsort_update w a ds0)))
  = length (pending (video_file w (input_path a))).
Proof.
  intros Hc Hi Hf Ho.
  pose proof (load_video_file_mode w (init w a ds0) Hc) as L.
  cbn [args init tracker writer] in L. rewrite Hf, Ho in L.
  destruct (enter_after_load w _ _ _ L) as (evs' & E & N).
  cbn [args] in E.
  assert (Fr : forall s : @VideoTracker Image TrackerState,
             vdo s = video_file w (input_path a) ->
             frames_of (vdo s) = pending (video_file w (input_path a))).
  { intros s ->. unfold frames_of. rewrite Ho. reflexivity. }
  destruct (nonempty (save_path a)) eqn:Es;
    destruct (main_after_enter w a ds0 _ _ E) as (res & R & F & T & S);
    try (cbn; exact N); try (cbn; exact Hi);
    rewrite E; cbn [trace_of fst];
    rewrite Fr in F, S by reflexivity; cbn [with_writer writer] in R.
  - split; [intros _; exists res; split; assumption |].
    split; [discriminate |]. split; [exact T |]. split; [| exact S].
    destruct T as [rest' T]. rewrite T. reflexivity.
  - split; [discriminate |]. split; [intros _; exact R |].
    split; [exact T |]. split; [| exact S].
    destruct T as [rest' T]. rewrite T. reflexivity.
Qed.

End SetupThenRun.

Lemma camera_without_frame_aborts_witness :
  main Sample.frame_shape Sample.detector Sample.deepsort_update
    Sample.missing_file_world Sample.camera_args Sample.one_track =
    ([EvCameraRead],
     Raise (AssertionError (Some "Error: Camera error"%string))).
Proof.
  apply (camera_without_frame_aborts Sample.frame_shape Sample.detector
           Sample.deepsort_update Sample.missing_file_world
           Sample.camera_args Sample.one_track).
  - vm_compute. discriminate.
  - reflexivity.
Defined.

Lemma camera_first_frame_dropped_witness :
  let m :=
    main Sample.frame_shape Sample.detector Sample.deepsort_update
      Sample.clip_world Sample.camera_args Sample.one_track in
  (nonempty (save_path Sample.camera_args) = true ->
   exists res,
     result_of m = Ok res /\ out_videoFrames res = [Sample.car_frame]) /\
  (nonempty (save_path Sample.camera_args) = false ->
   result_of m = Raise AttributeError) /\
  hd_error (trace_of m) = Some EvCameraRead /\
  length (frame_segments (trace_of m)) = length [Sample.car_frame].
Proof.
  apply (camera_first_frame_dropped Sample.frame_shape Sample.detector
           Sample.deepsort_update Sample.clip_world Sample.camera_args
           Sample.one_track Sample.person_frame [Sample.car_frame]).
  - vm_compute. discriminate.
  - vm_compute. discriminate.
  - reflexivity.
Defined.

Lemma file_mode_processes_whole_video_witness :
  let m :=
    main Sample.frame_shape Sample.detector Sample.deepsort_update
      Sample.clip_world Sample.no_save_args Sample.one_track in
  let v := video_file Sample.clip_world (input_path Sample.no_save_args) in
  (nonempty (save_path Sample.no_save_args) = true ->
   exists res, result_of m = Ok res /\ out_videoFrames res = pending v) /\
  (nonempty (save_path Sample.no_save_args) = false ->
   result_of m = Raise AttributeError) /\
  (exists rest,
      trace_of m =
      trace_of (enter Sample.clip_world
                  (init Sample.clip_world Sample.no_save_args
                     Sample.one_track)) ++ rest) /\
  hd_error (trace_of m) = Some (EvOpen (input_path Sample.no_save_args)) /\
  length (frame_segments (trace_of m)) = length (pending v).
Proof.
  apply (file_mode_processes_whole_video Sample.frame_shape Sample.detector
           Sample.deepsort_update Sample.clip_world Sample.no_save_args
           Sample.one_track).
  - reflexivity.
  - vm_compute. discriminate.
  - reflexivity.
  - reflexivity.
Defined.

Lemma run_returns_tracked_box_witness :
  let self :=
    mkVideoTracker Sample.default_args Sample.clip_capture Sample.one_track
      640%Z 480%Z true in
  let output :=
    hd Sample.row_a
       (snd (Sample.deepsort_update Sample.one_track
               [xyxy2xywh Sample.person_row] [conf Sample.person_row]
               Sample.person_frame)) in
  exists res bboxes,
    result_of (run Sample.frame_shape Sample.detector Sample.deepsort_update
                 self) = Ok res /\
    nth_error (out_playerBoxes_list res) (length (@nil Sample.Frame))
      = Some bboxes /\
    In (augment_deepsort_bbox
          (mkBBox (tx1 output) (ty1 output)
                  ((3 # 2) * (tx2 output - tx1 output))
                  ((11 # 10) * (ty2 output - ty1 output)))
          (inject_Z (snd (Sample.frame_shape Sample.person_frame)))
          (inject_Z (fst (Sample.frame_shape Sample.person_frame)))
          (3 # 2) (6 # 5))
       bboxes.
Proof.
  apply (run_returns_tracked_box Sample.frame_shape Sample.detector
           Sample.deepsort_update
           (mkVideoTracker Sample.default_args Sample.clip_capture
              Sample.one_track 640%Z 480%Z true)
           (fst (Sample.deepsort_update Sample.one_track
                   [xyxy2xywh Sample.person_row] [conf Sample.person_row]
                   Sample.person_frame))
           [] [Sample.car_frame] Sample.person_frame
           (loop_init Sample.one_track) [] []
           (hd Sample.row_a
              (snd (Sample.deepsort_update Sample.one_track
                      [xyxy2xywh Sample.person_row] [conf Sample.person_row]
                      Sample.person_frame)))).
  - vm_compute. discriminate.
  - reflexivity.
  - reflexivity.
  - reflexivity.
  - reflexivity.
  - intros o [].
Defined.

(** ** The sign of [frame_interval] *)

Lemma mod_opp_zero (k i : Z) :
  (k mod - i =? 0)%Z = (k mod i =? 0)%Z.
Proof.
  destruct (Z.eq_dec i 0) as [-> | N]; [reflexivity |].
  destruct (k mod i =? 0)%Z eqn:E.
  - apply Z.eqb_eq in E. apply Z.eqb_eq.
    apply Z.mod_divide in E; [| exact N].
    apply Z.mod_divide; [lia |]. apply Z.divide_opp_l. exact E.
  - apply Z.eqb_neq in E. apply Z.eqb_neq. intro H. apply E.
    apply Z.mod_divide in H; [| lia].
    apply Z.mod_divide; [exact N |]. apply Z.divide_opp_l in H.
    rewrite Z.opp_involutive in H. exact H.
Qed.

Section IntervalSign.

Context {Image : Type} (shape : Image -> Z * Z).
Variable detector : Image -> list DetRow.
Context {TrackerState : Type}.
Variable deepsort_update :
  TrackerState -> list BBox -> list Q -> Image -> TrackerState * list TrackRow.

(** A negative [frame_interval] selects the same frames as its absolute
    value: the loop with [-n] does exactly what the loop with [n] does,
    events, exceptions and final state alike. *)
Theorem negative_interval_same_loop (a a' : Args)
    (st : @Loop Image TrackerState) (frames : list Image) :
  frame_interval a' = (- frame_interval a)%Z ->
  run_loop shape detector deepsort_update a' st frames =
  run_loop shape detector deepsort_update a st frames.
Proof.
  intro Hn. revert st. induction frames as [| img0 rest IH]; intro st;
    [reflexivity |].
  cbn [run_loop].
  assert (B : loop_body shape detector deepsort_update a' st img0 =
              loop_body shape detector deepsort_update a st img0).
  { unfold loop_body. rewrite Hn, mod_opp_zero.
    replace (- frame_interval a =? 0)%Z with (frame_interval a =? 0)%Z
      by (destruct (frame_interval a); reflexivity).
    reflexivity. }
  rewrite B. destruct (loop_body shape detector deepsort_update a st img0)
    as [evs [st' | e]]; [| reflexivity].
  rewrite !bind_ok, IH. reflexivity.
Qed.

End IntervalSign.

Lemma negative_interval_same_loop_witness :
  run_loop Sample.frame_shape Sample.detector Sample.deepsort_update
    Sample.negative_interval_args (loop_init Sample.one_track) Sample.clip =
  run_loop Sample.frame_shape Sample.detector Sample.deepsort_update
    Sample.every_other_args (loop_init Sample.one_track) Sample.clip.
Proof.
  apply (negative_interval_same_loop Sample.frame_shape Sample.detector
           Sample.deepsort_update Sample.every_other_args
           Sample.negative_interval_args (loop_init Sample.one_track)
           Sample.clip).
  reflexivity.
Defined.

(** * The box augmentation in binary64 *)

Module F64Facts.

Import Floats.
Import F64.
Local Open Scope float_scope.

(** ** Comparisons of binary64 values *)


Lemma SFcompare_refl_not_lt (t : spec_float) : SFcompare t t <> Some Lt.
Proof.
  destruct t as [z | i | | sg m e]; cbn; try discriminate.
  - destruct i; discriminate.
  - destruct sg; rewrite Z.compare_refl;
      rewrite Pos.compare_cont_refl; discriminate.
Qed.

Lemma ltb_irrefl (x : float) : (x <? x) = false.
Proof.
  rewrite ltb_spec. unfold SFltb.
  pose proof (SFcompare_refl_not_lt (Prim2SF x)) as H.
  destruct (SFcompare (Prim2SF x) (Prim2SF x)) as [[| |] |];
    congruence.
Qed.

Lemma ltb_leb (x y : float) : (x <? y) = true -> (x <=? y) = true.
Proof.
  rewrite ltb_spec, leb_spec. unfold SFltb, SFleb.
  destruct (SFcompare (Prim2SF x) (Prim2SF y)) as [[| |] |]; congruence.
Qed.



(** ** [max] and [min] *)

Lemma max_zero_nonneg (v : float) : (0 <=? max 0 v) = true.
Proof.
  unfold max. destruct (0 <? v) eqn:E.
  - apply ltb_leb, E.
  - reflexivity.
Qed.

Lemma min_not_above_right (a b : float) : (b <? min a b) = false.
Proof.
  unfold min. destruct (b <? a) eqn:E.
  - apply ltb_irrefl.
  - exact E.
Qed.


(** ** [augment_deepsort_bbox] *)

(** C9 fails as stated: the box [[100, 42, 150, 1.1 * 368]] (what
    [transform_playerBoxes_to_list] makes of the recorded corner box
    [[100, 42, 200, 410]]) has non-negative entries and its centre inside
    the 640 by 480 frame, and the box returned for it with the default
    ratios has y' + h' greater than the frame height 480 (by 2^-45). *)
Lemma augment_sticks_out_of_frame :
  let bbox := mkBBox 100 42 150 (one_point_one * 368) in
  let r :=
    augment_deepsort_bbox bbox 640 480
      default_width_ratio default_height_ratio in
  ((0 <=? b0 bbox) = true /\ (0 <=? b1 bbox) = true /\
   (0 <=? b2 bbox) = true /\ (0 <=? b3 bbox) = true /\
   (b0 bbox + b2 bbox / 2 <=? 640) = true /\
   (b1 bbox + b3 bbox / 2 <=? 480) = true) /\
  exists y' h' : Q,
    exact (b1 r) = Some y' /\ exact (b3 r) = Some h' /\
    (480 < y' + h')%Q.
Proof.
  cbv zeta. split.
  - repeat split; vm_compute; reflexivity.
  - eexists. eexists. split; [vm_compute; reflexivity |].
    split; [vm_compute; reflexivity |]. vm_compute. reflexivity.
Qed.

(** The input of that run, entry by entry. *)
Lemma corner_augment_of_recorded_box :
  corner_augment (mkBBox 100 42 200 410) =
  mkBBox 100 42 150 (one_point_one * 368).
Proof. vm_compute. reflexivity. Qed.

(** C9, as the code has it: for every box, frame size and ratios, the
    returned x and y are at least 0, the returned width is not greater
    than the binary64 difference [frame_width - x'] and the returned
    height is not greater than [frame_height - y'].  (The sums x' + w' and
    y' + h' themselves can exceed the frame size by the rounding error of
    that difference.) *)
Theorem augment_within_rounded_room
    (bbox : BBox) (fw fh wr hr : float) :
  let r := augment_deepsort_bbox bbox fw fh wr hr in
  (0 <=? b0 r) = true /\
  (0 <=? b1 r) = true /\
  (fw - b0 r <? b2 r) = false /\
  (fh - b1 r <? b3 r) = false.
Proof.
  cbv zeta. unfold augment_deepsort_bbox. cbn [b0 b1 b2 b3].
  repeat split.
  - apply max_zero_nonneg.
  - apply max_zero_nonneg.
  - apply min_not_above_right.
  - apply min_not_above_right.
Qed.




End F64Facts.
